(** * continuous-profiler: the rotation controller of [src/index.ts]

    A shallow embedding of the [ContinuousProfiler] class and of the host
    objects it talks to (the JS Self-Profiling engine, the timer table, the
    high resolution clock and the promise reactions), followed by the
    properties of the session life cycle. *)

From Stdlib Require Import Floats.PrimFloat Floats.SpecFloat Floats.FloatOps.
From Stdlib Require Uint63.
From stdpp Require Import gmap list strings.

(** ** JavaScript numbers

    A JS [number] is an IEEE 754 binary64 value: the primitive floats are
    exactly that, and their operations compute. *)

Definition number : Type := float.

(** [ToBoolean] on a number: [+0], [-0] and [NaN] are falsy. *)
Definition truthy (x : number) : bool := negb (is_zero x || is_nan x).

(** [a && b] where [a] is an object or [undefined] and [b] reads a field
    of it. *)
Definition js_and {A B : Type} (a : option A) (b : A -> option B) : option B :=
  match a with
  | Some o => b o
  | None => None
  end.

(** [v || d] where [v] is a number or [undefined] and [d] a number. *)
Definition js_or (v : option number) (d : number) : number :=
  match v with
  | Some x => if truthy x then x else d
  | None => d
  end.

(** [Math.round]: the integral number closest to [x], a tie going towards
    +infinity; [NaN], the infinities and integral values are returned as
    they are, and a negative [x] no smaller than -0.5 gives [-0]. *)
Definition two52 : number := 4503599627370496%float.

Definition Math_round (x : number) : number :=
  if is_nan x || is_infinity x then x
  else if (two52 <=? abs x)%float then x
  else
    let a := abs x in
    let n := (a + two52 - two52)%float in
    if (n =? a)%float then x
    else
      let fl := if (a <? n)%float then (n - 1)%float else n in
      let frac := (a - fl)%float in
      if (x <? 0)%float
      then (- (if (frac <=? 0.5)%float then fl else fl + 1))%float
      else (if (0.5 <=? frac)%float then fl + 1 else fl)%float.

(** ** The data model: the interfaces of [src/index.ts] *)

Module ProfilerFrame.
Record t : Type := mk
  { name : string;
    resourceId : option number;
    line : option number;
    column : option number }.
End ProfilerFrame.

Module ProfilerStack.
Record t : Type := mk
  { parentId : option number;
    frameId : number }.
End ProfilerStack.

Module ProfilerSample.
Record t : Type := mk
  { timestamp : number;
    stackId : option number }.
End ProfilerSample.

Definition ProfilerResource : Type := string.

Module ProfilerTrace.
Record t : Type := mk
  { resources : list ProfilerResource;
    frames : list ProfilerFrame.t;
    stacks : list ProfilerStack.t;
    samples : list ProfilerSample.t }.
End ProfilerTrace.

Module ProfilerInitOptions.
Record t : Type := mk
  { sampleInterval : number;
    maxBufferSize : number }.
End ProfilerInitOptions.

(** [ContinuousProfilerTrace extends ProfilerTrace]: the fields of the raw
    trace together with [start] and [end]. *)
Module ContinuousProfilerTrace.
Record t : Type := mk
  { trace : ProfilerTrace.t;
    start : number;
    end_ : number }.
End ContinuousProfilerTrace.

Module ContinuousProfilerInitOptions.
Record t : Type := mk
  { sampleInterval : option number;
    collectInterval : option number }.
End ContinuousProfilerInitOptions.

Module ContinuousProfilerOptions.
Record t : Type := mk
  { sampleInterval : number;
    collectInterval : number;
    maxBufferSize : number }.
End ContinuousProfilerOptions.

(** A session holds the handle of its engine instance, the clock reading
    taken when it was created and the id of its rotation timer. *)
Module ContinuousProfilerSession.
Record t : Type := mk
  { profiler : nat;
    start : number;
    timeoutId : nat }.
End ContinuousProfilerSession.

(** The class itself.  The [callback] field is the consumer's function: its
    invocations are recorded in the log of the world below. *)
Module ContinuousProfiler.
Record t : Type := mk
  { session : option ContinuousProfilerSession.t;
    options : ContinuousProfilerOptions.t }.
End ContinuousProfiler.

(** ** The constructor (lines 127-138) *)

Definition constructor (options : option ContinuousProfilerInitOptions.t)
  : ContinuousProfiler.t :=
  let sampleInterval :=
    js_or (js_and options ContinuousProfilerInitOptions.sampleInterval) 10%float in
  let collectInterval :=
    js_or (js_and options ContinuousProfilerInitOptions.collectInterval) 10000%float in
  {| ContinuousProfiler.session := None;
     ContinuousProfiler.options :=
       {| ContinuousProfilerOptions.sampleInterval := sampleInterval;
          ContinuousProfilerOptions.collectInterval := collectInterval;
          ContinuousProfilerOptions.maxBufferSize :=
            Math_round ((collectInterval * 1.5) / sampleInterval)%float |} |}.

(** ** The host environment

    What the module reads from the page and never writes: whether
    [globalThis.Profiler] is defined (line 114), [performance.timeOrigin],
    and the readings of [performance.now()], the n-th call returning
    [now n]. *)

Record Host : Type := mkHost
  { Profiler_defined : bool;
    timeOrigin : number;
    now : nat -> number }.

(** The two zero-argument closures that [start] creates: the timer callback
    of lines 173-176 and the listener of lines 179-182. *)
Inductive Callable : Type :=
  | TimeoutCallback
  | SampleBufferFullListener.

(** An engine instance, as far as the controller can tell: the options it
    was constructed with, whether its [stop()] was called, its
    [samplebufferfull] listeners, and the reactions attached with [then] to
    the promise of its [stop()], each the closure of lines 195-203 with the
    [start] it captured. *)
Module Profiler.
Record t : Type := mk
  { init : ProfilerInitOptions.t;
    stopped : bool;
    listeners : list Callable;
    reactions : list number }.
End Profiler.

(** A pending timer of the host's timer table. *)
Record Timer : Type := mkTimer
  { handler : Callable;
    delay : number }.

(** The calls the controller makes on its collaborators, in order. *)
Inductive Call : Type :=
  | PerformanceNow (reading : number)
  | NewProfiler (p : nat) (o : ProfilerInitOptions.t)
  | SetTimeout (id : nat) (delay : number)
  | AddEventListener (p : nat)
  | ProfilerStop (p : nat)
  | ClearTimeout (id : nat)
  | Callback (trace : ContinuousProfilerTrace.t).

(** What is thrown: an [Error] object made by the module itself, or an
    exception object of the host (a [DOMException], a [RangeError], ...),
    told by its name. *)
Inductive JsError : Type :=
  | Error (message : string)
  | HostException (name : string).

(** The promise [stop] returns: [Promise.resolve()], or the promise chained
    on the stop promise of engine [p]. *)
Inductive Promise : Type :=
  | PromiseResolved
  | PromiseThen (p : nat).

(** The mutable world: the controller object, every engine instance ever
    constructed (the handle is the index), the timer table, and the
    history of the calls made so far. *)
Record World : Type := mkWorld
  { this : ContinuousProfiler.t;
    profilers : list Profiler.t;
    timers : gmap nat Timer;
    nextTimeoutId : nat;
    reads : nat;
    calls : list Call }.

(** ** A state and exception monad for method bodies *)

Inductive Completion (A : Type) : Type :=
  | Normal (a : A)
  | Throw (e : JsError).
Arguments Normal {A} a.
Arguments Throw {A} e.

Definition M (A : Type) : Type := World -> Completion A * World.

#[export] Instance M_ret : MRet M := fun A a w => (Normal a, w).

#[export] Instance M_bind : MBind M := fun A B f m w =>
  match m w with
  | (Normal a, w') => f a w'
  | (Throw e, w') => (Throw e, w')
  end.

Definition throw {A : Type} (e : JsError) : M A := fun w => (Throw e, w).

Definition record (c : Call) (w : World) : World :=
  {| this := this w; profilers := profilers w; timers := timers w;
     nextTimeoutId := nextTimeoutId w; reads := reads w;
     calls := calls w ++ [c] |}.

Definition get_session : M (option ContinuousProfilerSession.t) :=
  fun w => (Normal (ContinuousProfiler.session (this w)), w).

Definition set_session (s : option ContinuousProfilerSession.t) : M unit :=
  fun w =>
    (Normal tt,
     {| this := {| ContinuousProfiler.session := s;
                   ContinuousProfiler.options := ContinuousProfiler.options (this w) |};
        profilers := profilers w; timers := timers w;
        nextTimeoutId := nextTimeoutId w; reads := reads w;
        calls := calls w |}).

Definition get_options : M ContinuousProfilerOptions.t :=
  fun w => (Normal (ContinuousProfiler.options (this w)), w).

(** ** The collaborators *)

(** [performance.now()] *)
Definition performance_now (h : Host) : M number :=
  fun w =>
    let v := now h (reads w) in
    (Normal v,
     record (PerformanceNow v)
       {| this := this w; profilers := profilers w; timers := timers w;
          nextTimeoutId := nextTimeoutId w; reads := S (reads w);
          calls := calls w |}).

(** [new Profiler(o)] where the constructor accepts [o]: a running instance
    with no listener yet.  The constructor that can refuse is
    [new_Profiler_in] below. *)
Definition new_Profiler (o : ProfilerInitOptions.t) : M nat :=
  fun w =>
    let p := length (profilers w) in
    (Normal p,
     record (NewProfiler p o)
       {| this := this w;
          profilers := profilers w ++
            [{| Profiler.init := o; Profiler.stopped := false;
                Profiler.listeners := []; Profiler.reactions := [] |}];
          timers := timers w; nextTimeoutId := nextTimeoutId w;
          reads := reads w; calls := calls w |}).

(** [setTimeout(c, delay)] *)
Definition setTimeout (c : Callable) (d : number) : M nat :=
  fun w =>
    let id := nextTimeoutId w in
    (Normal id,
     record (SetTimeout id d)
       {| this := this w; profilers := profilers w;
          timers := <[id := {| handler := c; delay := d |}]> (timers w);
          nextTimeoutId := S id; reads := reads w; calls := calls w |}).

(** [clearTimeout(id)] *)
Definition clearTimeout (id : nat) : M unit :=
  fun w =>
    (Normal tt,
     record (ClearTimeout id)
       {| this := this w; profilers := profilers w;
          timers := delete id (timers w);
          nextTimeoutId := nextTimeoutId w; reads := reads w;
          calls := calls w |}).

Definition update_profiler (f : Profiler.t -> Profiler.t) (p : nat) (w : World)
  : World :=
  {| this := this w; profilers := alter f p (profilers w);
     timers := timers w; nextTimeoutId := nextTimeoutId w;
     reads := reads w; calls := calls w |}.

(** [p.addEventListener("samplebufferfull", c)] *)
Definition addEventListener (p : nat) (c : Callable) : M unit :=
  fun w =>
    (Normal tt,
     record (AddEventListener p)
       (update_profiler
          (fun e => {| Profiler.init := Profiler.init e;
                       Profiler.stopped := Profiler.stopped e;
                       Profiler.listeners := Profiler.listeners e ++ [c];
                       Profiler.reactions := Profiler.reactions e |}) p w)).

(** [p.stop().then(trace => ...)], the closure having captured [start]. *)
Definition Profiler_stop_then (p : nat) (start : number) : M Promise :=
  fun w =>
    (Normal (PromiseThen p),
     record (ProfilerStop p)
       (update_profiler
          (fun e => {| Profiler.init := Profiler.init e;
                       Profiler.stopped := true;
                       Profiler.listeners := Profiler.listeners e;
                       Profiler.reactions := Profiler.reactions e ++ [start] |}) p w)).

(** [this.callback(trace)] *)
Definition callback (t : ContinuousProfilerTrace.t) : M unit :=
  fun w => (Normal tt, record (Callback t) w).

(** ** The methods of [ContinuousProfiler] *)

Section Controller.
Variable h : Host.

(** [get supported()] (lines 143-145) *)
Definition supported : bool := Profiler_defined h.

(** [get stopped()] (lines 150-152) *)
Definition stopped (w : World) : bool :=
  match ContinuousProfiler.session (this w) with
  | Some _ => false
  | None => true
  end.

(** [start()] (lines 158-183) *)
Definition start : M unit :=
  if negb (Profiler_defined h) then throw (Error "Profiler is not supported.")
  else
    s ← get_session;
    match s with
    | Some _ => mret tt
    | None =>
        o ← get_options;
        t ← performance_now h;
        p ← new_Profiler
              {| ProfilerInitOptions.sampleInterval :=
                   ContinuousProfilerOptions.sampleInterval o;
                 ProfilerInitOptions.maxBufferSize :=
                   ContinuousProfilerOptions.maxBufferSize o |};
        id ← setTimeout TimeoutCallback (ContinuousProfilerOptions.collectInterval o);
        set_session
          (Some {| ContinuousProfilerSession.start := t;
                   ContinuousProfilerSession.profiler := p;
                   ContinuousProfilerSession.timeoutId := id |});;
        addEventListener p SampleBufferFullListener
    end.

(** [stop()] (lines 189-208) *)
Definition stop : M Promise :=
  s ← get_session;
  match s with
  | None => mret PromiseResolved
  | Some s =>
      let start := ContinuousProfilerSession.start s in
      promise ← Profiler_stop_then (ContinuousProfilerSession.profiler s) start;
      clearTimeout (ContinuousProfilerSession.timeoutId s);;
      set_session None;;
      mret promise
  end.

(** The closure passed to [setTimeout] (lines 173-176). *)
Definition timeoutCallback : M unit := stop;; start.

(** The closure passed to [addEventListener] (lines 179-182). *)
Definition sampleBufferFullListener : M unit := stop;; start.

(** The closure passed to [then] (lines 195-203); [Object.assign] puts
    [start] and [end] on the trace. *)
Definition thenCallback (start : number) (trace : ProfilerTrace.t) : M unit :=
  end_ ← performance_now h;
  callback
    {| ContinuousProfilerTrace.trace := trace;
       ContinuousProfilerTrace.start := (timeOrigin h + start)%float;
       ContinuousProfilerTrace.end_ := (timeOrigin h + end_)%float |}.

Definition call (c : Callable) : M unit :=
  match c with
  | TimeoutCallback => timeoutCallback
  | SampleBufferFullListener => sampleBufferFullListener
  end.

(** ** The event loop

    Each event is handled to completion before the next one.  An error
    thrown while handling one is reported by the host; the world keeps what
    was done before the throw. *)

Inductive Event : Type :=
  | CallStart
  | CallStop
  | TimerFires (id : nat)
  | SampleBufferFull (p : nat)
  | StopResolves (p : nat) (trace : ProfilerTrace.t).

Definition settle {A : Type} (m : M A) (w : World) : World := snd (m w).

(** Listeners run in the order they were added, each whatever the others
    did. *)
Fixpoint dispatch (ls : list Callable) (w : World) : World :=
  match ls with
  | [] => w
  | c :: ls' => dispatch ls' (settle (call c) w)
  end.

(** The reactions of a fulfilled promise, in the order they were attached. *)
Fixpoint react (rs : list number) (trace : ProfilerTrace.t) (w : World) : World :=
  match rs with
  | [] => w
  | start :: rs' => react rs' trace (settle (thenCallback start trace) w)
  end.

Definition clear_reactions (e : Profiler.t) : Profiler.t :=
  {| Profiler.init := Profiler.init e;
     Profiler.stopped := Profiler.stopped e;
     Profiler.listeners := Profiler.listeners e;
     Profiler.reactions := [] |}.

Definition remove_timer (id : nat) (w : World) : World :=
  {| this := this w; profilers := profilers w;
     timers := delete id (timers w);
     nextTimeoutId := nextTimeoutId w; reads := reads w;
     calls := calls w |}.

Definition perform (ev : Event) (w : World) : World :=
  match ev with
  | CallStart => settle start w
  | CallStop => settle stop w
  | TimerFires id =>
      match timers w !! id with
      | Some tm => settle (call (handler tm)) (remove_timer id w)
      | None => w
      end
  | SampleBufferFull p =>
      match profilers w !! p with
      | Some e => dispatch (Profiler.listeners e) w
      | None => w
      end
  | StopResolves p trace =>
      match profilers w !! p with
      | Some e => react (Profiler.reactions e) trace (update_profiler clear_reactions p w)
      | None => w
      end
  end.

Definition run (evs : list Event) (w : World) : World :=
  foldl (fun w ev => perform ev w) w evs.

(** The world right after [new ContinuousProfiler(callback, options)]. *)
Definition fresh (options : option ContinuousProfilerInitOptions.t) : World :=
  {| this := constructor options; profilers := []; timers := ∅;
     nextTimeoutId := 1; reads := 0; calls := [] |}.

(** The worlds the event loop can reach. *)
Definition reachable (w : World) : Prop :=
  exists options evs, w = run evs (fresh options).

(** ** Observations *)

(** Engine [p] was constructed and its [stop()] was not called. *)
Definition live (w : World) (p : nat) : bool :=
  match profilers w !! p with
  | Some e => negb (Profiler.stopped e)
  | None => false
  end.

(** The handles of the live engines. *)
Definition live_profilers (w : World) : list nat :=
  filter (fun p => live w p = true) (seq 0 (length (profilers w))).

(** The traces handed to the consumer so far, oldest first. *)
Definition delivered (w : World) : list ContinuousProfilerTrace.t :=
  omap (fun c => match c with Callback t => Some t | _ => None end) (calls w).

(** The stop promise of engine [p] has a reaction waiting. *)
Definition pending (w : World) (p : nat) : Prop :=
  exists e, profilers w !! p = Some e /\ Profiler.reactions e <> [].

End Controller.

(** ** An engine constructor that can refuse

    [new Profiler(o)] is the host's: where [Profiler] is defined it can
    still throw, on a page without the [js-profiling] document policy or on
    options it rejects.  [refuses g o] is the name of the exception it
    throws on [o], if it throws. *)
Record Engine : Type := mkEngine
  { refuses : ProfilerInitOptions.t -> option string }.

Definition new_Profiler_in (g : Engine) (o : ProfilerInitOptions.t) : M nat :=
  fun w =>
    match refuses g o with
    | Some name => (Throw (HostException name), w)
    | None => new_Profiler o w
    end.

(** [start()] (lines 158-183) with such a constructor: nothing catches what
    line 169 throws.  Where the constructor accepts, this is [start]
    (lemma [start_in_accepting]). *)
Definition start_in (h : Host) (g : Engine) : M unit :=
  if negb (Profiler_defined h) then throw (Error "Profiler is not supported.")
  else
    s ← get_session;
    match s with
    | Some _ => mret tt
    | None =>
        o ← get_options;
        t ← performance_now h;
        p ← new_Profiler_in g
              {| ProfilerInitOptions.sampleInterval :=
                   ContinuousProfilerOptions.sampleInterval o;
                 ProfilerInitOptions.maxBufferSize :=
                   ContinuousProfilerOptions.maxBufferSize o |};
        id ← setTimeout TimeoutCallback (ContinuousProfilerOptions.collectInterval o);
        set_session
          (Some {| ContinuousProfilerSession.start := t;
                   ContinuousProfilerSession.profiler := p;
                   ContinuousProfilerSession.timeoutId := id |});;
        addEventListener p SampleBufferFullListener
    end.

(** ** Closed forms of the two state changes

    [started h w] is the world [start] leaves when it creates a session,
    [halted w s] the one [stop] leaves when it retires session [s]; the
    lemmas [start_idle] and [stop_active] below prove that they are. *)

Definition session_profiler_init (w : World) : ProfilerInitOptions.t :=
  let o := ContinuousProfiler.options (this w) in
  {| ProfilerInitOptions.sampleInterval := ContinuousProfilerOptions.sampleInterval o;
     ProfilerInitOptions.maxBufferSize := ContinuousProfilerOptions.maxBufferSize o |}.

Definition rotation_timer (w : World) : Timer :=
  {| handler := TimeoutCallback;
     delay := ContinuousProfilerOptions.collectInterval
                (ContinuousProfiler.options (this w)) |}.

Definition started (h : Host) (w : World) : World :=
  let p := length (profilers w) in
  let id := nextTimeoutId w in
  let t := now h (reads w) in
  {| this :=
       {| ContinuousProfiler.session :=
            Some {| ContinuousProfilerSession.profiler := p;
                    ContinuousProfilerSession.start := t;
                    ContinuousProfilerSession.timeoutId := id |};
          ContinuousProfiler.options := ContinuousProfiler.options (this w) |};
     profilers := profilers w ++
       [{| Profiler.init := session_profiler_init w;
           Profiler.stopped := false;
           Profiler.listeners := [SampleBufferFullListener];
           Profiler.reactions := [] |}];
     timers := <[id := rotation_timer w]> (timers w);
     nextTimeoutId := S id;
     reads := S (reads w);
     calls := calls w ++
       [PerformanceNow t; NewProfiler p (session_profiler_init w);
        SetTimeout id (delay (rotation_timer w)); AddEventListener p] |}.

Definition retire (start : number) (e : Profiler.t) : Profiler.t :=
  {| Profiler.init := Profiler.init e;
     Profiler.stopped := true;
     Profiler.listeners := Profiler.listeners e;
     Profiler.reactions := Profiler.reactions e ++ [start] |}.

Definition halted (w : World) (s : ContinuousProfilerSession.t) : World :=
  {| this :=
       {| ContinuousProfiler.session := None;
          ContinuousProfiler.options := ContinuousProfiler.options (this w) |};
     profilers :=
       alter (retire (ContinuousProfilerSession.start s))
         (ContinuousProfilerSession.profiler s) (profilers w);
     timers := delete (ContinuousProfilerSession.timeoutId s) (timers w);
     nextTimeoutId := nextTimeoutId w;
     reads := reads w;
     calls := calls w ++
       [ProfilerStop (ContinuousProfilerSession.profiler s);
        ClearTimeout (ContinuousProfilerSession.timeoutId s)] |}.

(** The triggers of a rotation that the host can run in world [w]: a
    pending timer, or a [samplebufferfull] event of a constructed engine. *)
Definition trigger (w : World) (ev : Event) : Prop :=
  match ev with
  | TimerFires id => is_Some (timers w !! id)
  | SampleBufferFull p => is_Some (profilers w !! p)
  | _ => False
  end.

(** The invariant of the event loop: a session exists only where the
    engine does; the live engines are the session's one; the pending
    timers are the session's one; every engine carries the one listener
    [start] gave it; and no reaction waits on an engine whose [stop()] was
    not called. *)
Record consistent (h : Host) (w : World) : Prop := mkConsistent
  { session_needs_engine :
      forall s, ContinuousProfiler.session (this w) = Some s ->
                Profiler_defined h = true;
    live_is_session :
      forall p, live w p = true <->
                exists s, ContinuousProfiler.session (this w) = Some s /\
                          ContinuousProfilerSession.profiler s = p;
    timer_is_session :
      timers w =
      match ContinuousProfiler.session (this w) with
      | Some s => {[ ContinuousProfilerSession.timeoutId s := rotation_timer w ]}
      | None => ∅
      end;
    one_listener :
      forall p e, profilers w !! p = Some e ->
                  Profiler.listeners e = [SampleBufferFullListener];
    live_no_reaction :
      forall p e, profilers w !! p = Some e -> Profiler.stopped e = false ->
                  Profiler.reactions e = [] }.

(** Engine [p] belongs to a session that read the clock at [S]: the
    session, while it is the active one, and every reaction waiting on the
    stop promise of [p] carry [S]. *)
Record stamped (p : nat) (S : number) (w : World) : Prop := mkStamped
  { stamped_session :
      forall s, ContinuousProfiler.session (this w) = Some s ->
                ContinuousProfilerSession.profiler s = p ->
                ContinuousProfilerSession.start s = S;
    stamped_reactions :
      forall e, profilers w !! p = Some e ->
                Profiler.reactions e = [] \/ Profiler.reactions e = [S];
    stamped_constructed : p < length (profilers w) }.

(** The buffer size as the specification words it, from the sample
    interval and the collect interval. *)
Definition derived_maxBufferSize (sampleInterval collectInterval : number) : number :=
  Math_round ((collectInterval * 1.5) / sampleInterval)%float.

(** The integer [z] as a number (exact for |z| below 2^53). *)
Definition number_of_Z (z : Z) : number :=
  if (z <? 0)%Z then (- PrimFloat.of_uint63 (Uint63.of_Z (- z)))%float
  else PrimFloat.of_uint63 (Uint63.of_Z z).

(** round(1.5 c / s) computed over the integers, for positive [s]: the
    quotient 3c / 2s rounded to the nearest integer, a tie going up. *)
Definition exact_round_half_up (s c : Z) : Z := (3 * c + s) `div` (2 * s).

(** The exact value of a finite number, as a signed mantissa [m] and a
    binary exponent [e]: the number is m * 2^e. *)
Definition exact (x : number) : option (Z * Z) :=
  match Prim2SF x with
  | S754_zero _ => Some (0%Z, 0%Z)
  | S754_finite sign m e => Some (if sign then Z.neg m else Z.pos m, e)
  | _ => None
  end.




(** ** Sample environments *)

Definition sample_clock (n : nat) : number :=
  match n with
  | 0 => 250%float
  | 1 => 750%float
  | _ => 1250%float
  end.

(** A page where the engine exists, and one where it does not. *)
Definition browser : Host :=
  {| Profiler_defined := true; timeOrigin := 1000000%float; now := sample_clock |}.

Definition legacy_browser : Host :=
  {| Profiler_defined := false; timeOrigin := 1000000%float; now := sample_clock |}.

(** An engine constructor that accepts everything, and the one of a page
    served without the document policy. *)
Definition accepting : Engine := {| refuses := fun _ => None |}.

Definition policy_missing : Engine :=
  {| refuses := fun _ => Some "NotAllowedError" |}.

Definition empty_trace : ProfilerTrace.t :=
  {| ProfilerTrace.resources := []; ProfilerTrace.frames := [];
     ProfilerTrace.stacks := []; ProfilerTrace.samples := [] |}.

(** ** Accounting over the engines and the call log *)

(** The engines whose [stop()] the controller called, in call order. *)
Definition stops (w : World) : list nat :=
  omap (fun c => match c with ProfilerStop p => Some p | _ => None end) (calls w).

(** How many engines had their [stop()] called. *)
Definition stopped_engines (w : World) : nat :=
  sum_list_with (fun e => if Profiler.stopped e then 1 else 0) (profilers w).

(** How many reactions wait on stop promises: the traces still to come. *)
Definition awaited (w : World) : nat :=
  sum_list_with (fun e => length (Profiler.reactions e)) (profilers w).

(** Every clock reading the controller holds was taken by an earlier call of
    [performance.now()], and every delivered trace has its [start] from a
    reading taken before the one of its [end]. *)
Record timed (h : Host) (w : World) : Prop := mkTimed
  { timed_session :
      forall s, ContinuousProfiler.session (this w) = Some s ->
                exists i, i < reads w /\
                          ContinuousProfilerSession.start s = now h i;
    timed_reactions :
      forall p e S, profilers w !! p = Some e -> S ∈ Profiler.reactions e ->
                    exists i, i < reads w /\ S = now h i;
    timed_delivered :
      forall t, t ∈ delivered w ->
                exists i j, i < j /\ j < reads w /\
                            ContinuousProfilerTrace.start t = (timeOrigin h + now h i)%float /\
                            ContinuousProfilerTrace.end_ t = (timeOrigin h + now h j)%float }.

(** The call log agrees with the engines: the stopped engines are the ones
    in [stops], each once. *)
Record logged (w : World) : Prop := mkLogged
  { logged_once : NoDup (stops w);
    logged_stopped :
      forall p, p ∈ stops w <->
                exists e, profilers w !! p = Some e /\ Profiler.stopped e = true }.

(** Every engine was constructed with the options of the controller. *)
Definition configured (w : World) : Prop :=
  forall p e, profilers w !! p = Some e -> Profiler.init e = session_profiler_init w.

(** The session holds the engine and the timer created last. *)
Definition newest (w : World) : Prop :=
  forall s, ContinuousProfiler.session (this w) = Some s ->
            S (ContinuousProfilerSession.profiler s) = length (profilers w) /\
            S (ContinuousProfilerSession.timeoutId s) = nextTimeoutId w.

(** * Properties *)

Section Properties.
Variable h : Host.

Lemma alter_app_last {A : Type} (f : A -> A) (l : list A) (e : A) :
  alter f (length l) (l ++ [e]) = l ++ [f e].
Proof.
  replace (length l) with (length l + 0) by lia.
  by rewrite alter_app_r.
Qed.

Lemma start_unsupported (w : World) :
  Profiler_defined h = false ->
  start h w = (Throw (Error "Profiler is not supported."), w).
Proof. intros Hc. unfold start. by rewrite Hc. Qed.

Lemma start_active (w : World) (s : ContinuousProfilerSession.t) :
  Profiler_defined h = true ->
  ContinuousProfiler.session (this w) = Some s ->
  start h w = (Normal tt, w).
Proof.
  intros Hc Hs. unfold start. rewrite Hc. cbn.
  unfold mbind, M_bind, get_session. by rewrite Hs.
Qed.

Lemma start_idle (w : World) :
  Profiler_defined h = true ->
  ContinuousProfiler.session (this w) = None ->
  start h w = (Normal tt, started h w).
Proof.
  intros Hc Hs. unfold start. rewrite Hc. cbn.
  unfold mbind, M_bind, get_session. rewrite Hs. cbn.
  unfold addEventListener, started, record, update_profiler. cbn.
  rewrite alter_app_last. cbn.
  by rewrite <- !app_assoc.
Qed.

Lemma stop_idle (w : World) :
  ContinuousProfiler.session (this w) = None ->
  stop w = (Normal PromiseResolved, w).
Proof.
  intros Hs. unfold stop, mbind, M_bind, get_session. by rewrite Hs.
Qed.

Lemma stop_active (w : World) (s : ContinuousProfilerSession.t) :
  ContinuousProfiler.session (this w) = Some s ->
  stop w = (Normal (PromiseThen (ContinuousProfilerSession.profiler s)), halted w s).
Proof.
  intros Hs. unfold stop, mbind, M_bind, get_session. rewrite Hs. cbn.
  unfold halted, record, update_profiler. cbn.
  by rewrite <- !app_assoc.
Qed.

(** ** The invariant holds in every reachable world *)

Lemma consistent_fresh (o : option ContinuousProfilerInitOptions.t) :
  consistent h (fresh o).
Proof.
  split; cbn; try done.
  intros p. unfold live. cbn. split; [done | by intros (s & ? & _)].
Qed.

Lemma consistent_started (w : World) :
  consistent h w ->
  Profiler_defined h = true ->
  ContinuousProfiler.session (this w) = None ->
  consistent h (started h w).
Proof.
  intros [_ Hlive Htm Hls Hre] Hc Hs. rewrite Hs in Htm.
  assert (Hdead : forall q, live w q = false).
  { intros q. destruct (live w q) eqn:E; [|done].
    apply Hlive in E as (s & E & _). congruence. }
  split; cbn.
  - done.
  - intros p. unfold live. cbn.
    destruct (decide (p < length (profilers w))) as [Hlt|Hge].
    + rewrite lookup_app_l by done. specialize (Hdead p). unfold live in Hdead.
      rewrite Hdead. split; [done|]. intros (s & [= <-] & Hp). cbn in Hp. lia.
    + rewrite lookup_app_r by lia.
      destruct (p - length (profilers w)) as [|k] eqn:E; cbn.
      * split; [|done]. intros _. eexists. split; [done|]. cbn. lia.
      * split; [done|]. intros (s & [= <-] & Hp). cbn in Hp. lia.
  - by rewrite Htm.
  - intros p e [[_ He]|[_ <-]]%lookup_snoc_Some; [by eapply Hls | done].
  - intros p e [[_ He]|[_ <-]]%lookup_snoc_Some; [by eapply Hre | done].
Qed.

Lemma consistent_halted (w : World) (s : ContinuousProfilerSession.t) :
  consistent h w ->
  ContinuousProfiler.session (this w) = Some s ->
  consistent h (halted w s).
Proof.
  intros [_ Hlive Htm Hls Hre] Hs. rewrite Hs in Htm.
  split; cbn.
  - done.
  - intros p. unfold live. cbn. split; [|by intros (? & ? & _)].
    destruct (decide (ContinuousProfilerSession.profiler s = p)) as [<-|Hne].
    + rewrite list_lookup_alter_eq.
      by destruct (profilers w !! ContinuousProfilerSession.profiler s).
    + rewrite list_lookup_alter_ne by done. intros Hp.
      change (live w p = true) in Hp.
      apply Hlive in Hp as (s' & E & <-). congruence.
  - rewrite Htm. apply delete_singleton_eq.
  - intros p e. rewrite list_lookup_alter.
    case_decide; [|by apply Hls].
    intros (e' & E & ->)%fmap_Some. cbn. by eapply Hls.
  - intros p e. rewrite list_lookup_alter.
    case_decide; [|by apply Hre].
    by intros (e' & E & ->)%fmap_Some.
Qed.

(** The invariant reads the controller, the engines and the timer table
    only. *)
Lemma consistent_frame (w w' : World) :
  this w' = this w -> profilers w' = profilers w -> timers w' = timers w ->
  consistent h w -> consistent h w'.
Proof.
  intros Ht Hp Htm [H1 H2 H3 H4 H5].
  split; unfold live, rotation_timer in *; rewrite ?Ht, ?Hp, ?Htm; done.
Qed.

(** ** What a method call leaves behind *)

Lemma settle_start_unsupported (w : World) :
  Profiler_defined h = false -> settle (start h) w = w.
Proof. intros Hc. unfold settle. by rewrite start_unsupported. Qed.

Lemma settle_start_active (w : World) (s : ContinuousProfilerSession.t) :
  Profiler_defined h = true ->
  ContinuousProfiler.session (this w) = Some s ->
  settle (start h) w = w.
Proof. intros Hc Hs. unfold settle. by erewrite start_active. Qed.

Lemma settle_start_idle (w : World) :
  Profiler_defined h = true ->
  ContinuousProfiler.session (this w) = None ->
  settle (start h) w = started h w.
Proof. intros Hc Hs. unfold settle. by rewrite start_idle. Qed.

Lemma settle_stop_idle (w : World) :
  ContinuousProfiler.session (this w) = None -> settle stop w = w.
Proof. intros Hs. unfold settle. by rewrite stop_idle. Qed.

Lemma settle_stop_active (w : World) (s : ContinuousProfilerSession.t) :
  ContinuousProfiler.session (this w) = Some s -> settle stop w = halted w s.
Proof. intros Hs. unfold settle. by rewrite (stop_active w s). Qed.

(** [stop] returns normally, so the [start] of a rotation always runs, and
    runs in the world [stop] left. *)
Lemma settle_rotation (w : World) :
  settle (stop;; start h) w = settle (start h) (settle stop w).
Proof.
  unfold settle at 1 3. unfold mbind, M_bind.
  destruct (ContinuousProfiler.session (this w)) as [s|] eqn:Hs.
  - by rewrite (stop_active w s).
  - by rewrite stop_idle.
Qed.

Lemma settle_call (c : Callable) (w : World) :
  settle (call h c) w = settle (start h) (settle stop w).
Proof. destruct c; apply settle_rotation. Qed.

Lemma settle_thenCallback (start : number) (trace : ProfilerTrace.t) (w : World) :
  settle (thenCallback h start trace) w =
  {| this := this w; profilers := profilers w; timers := timers w;
     nextTimeoutId := nextTimeoutId w; reads := S (reads w);
     calls := calls w ++
       [PerformanceNow (now h (reads w));
        Callback {| ContinuousProfilerTrace.trace := trace;
                    ContinuousProfilerTrace.start := (timeOrigin h + start)%float;
                    ContinuousProfilerTrace.end_ :=
                      (timeOrigin h + now h (reads w))%float |}] |}.
Proof.
  unfold settle, thenCallback, mbind, M_bind, performance_now, callback, record.
  cbn. by rewrite <- app_assoc.
Qed.

Lemma react_frame (rs : list number) (trace : ProfilerTrace.t) (w : World) :
  this (react h rs trace w) = this w /\
  profilers (react h rs trace w) = profilers w /\
  timers (react h rs trace w) = timers w /\
  nextTimeoutId (react h rs trace w) = nextTimeoutId w.
Proof.
  revert w. induction rs as [|r rs IH]; intros w; cbn; [done|].
  destruct (IH (settle (thenCallback h r trace) w)) as (-> & -> & -> & ->).
  by rewrite settle_thenCallback.
Qed.

Lemma consistent_start (w : World) :
  consistent h w -> consistent h (settle (start h) w).
Proof.
  intros Hw. destruct (Profiler_defined h) eqn:Hc.
  - destruct (ContinuousProfiler.session (this w)) as [s|] eqn:Hs.
    + by rewrite (settle_start_active w s).
    + rewrite settle_start_idle by done. by apply consistent_started.
  - by rewrite settle_start_unsupported.
Qed.

Lemma consistent_stop (w : World) :
  consistent h w -> consistent h (settle stop w).
Proof.
  intros Hw. destruct (ContinuousProfiler.session (this w)) as [s|] eqn:Hs.
  - rewrite (settle_stop_active w s) by done. by apply consistent_halted.
  - by rewrite settle_stop_idle.
Qed.

Lemma consistent_call (c : Callable) (w : World) :
  consistent h w -> consistent h (settle (call h c) w).
Proof.
  intros Hw. rewrite settle_call. by apply consistent_start, consistent_stop.
Qed.

Lemma consistent_dispatch (ls : list Callable) (w : World) :
  consistent h w -> consistent h (dispatch h ls w).
Proof.
  revert w. induction ls as [|c ls IH]; intros w Hw; cbn; [done|].
  by apply IH, consistent_call.
Qed.

Lemma consistent_clear_reactions (p : nat) (w : World) :
  consistent h w -> consistent h (update_profiler clear_reactions p w).
Proof.
  intros [H1 Hlive Htm Hls Hre]. split; cbn; try done.
  - intros q. rewrite <- Hlive. unfold live. cbn.
    rewrite list_lookup_alter. case_decide; [subst|done].
    by destruct (profilers w !! q).
  - intros q e. rewrite list_lookup_alter. case_decide; [|by apply Hls].
    intros (e' & E & ->)%fmap_Some. cbn. by eapply Hls.
  - intros q e. rewrite list_lookup_alter. case_decide; [|by apply Hre].
    by intros (e' & E & ->)%fmap_Some.
Qed.

(** Firing a timer takes it out of the table before its callback runs;
    in a consistent world the timer is the session's, and [stop] would have
    cleared it anyway. *)
Lemma consistent_timer_fires (id : nat) (tm : Timer) (w : World) :
  consistent h w -> timers w !! id = Some tm ->
  exists s, ContinuousProfiler.session (this w) = Some s /\
            ContinuousProfilerSession.timeoutId s = id /\
            tm = rotation_timer w /\
            settle stop (remove_timer id w) = halted w s.
Proof.
  intros [_ _ Htm _ _] Hid. rewrite Htm in Hid.
  destruct (ContinuousProfiler.session (this w)) as [s|] eqn:Hs; [|done].
  apply lookup_singleton_Some in Hid as [<- <-].
  exists s. repeat split.
  rewrite (settle_stop_active _ s) by done.
  unfold halted, remove_timer. cbn. f_equal.
  rewrite Htm. by rewrite delete_singleton_eq, delete_empty.
Qed.

Lemma consistent_perform (ev : Event) (w : World) :
  consistent h w -> consistent h (perform h ev w).
Proof.
  intros Hw. destruct ev as [| |id|p|p trace]; cbn.
  - by apply consistent_start.
  - by apply consistent_stop.
  - destruct (timers w !! id) as [tm|] eqn:Hid; [|done].
    destruct (consistent_timer_fires id tm w Hw Hid) as (s & Hs & _ & _ & Hh).
    rewrite settle_call, Hh.
    by apply consistent_start, consistent_halted.
  - destruct (profilers w !! p); [|done]. by apply consistent_dispatch.
  - destruct (profilers w !! p) as [e|]; [|done].
    destruct (react_frame (Profiler.reactions e) trace
                (update_profiler clear_reactions p w)) as (Ht & Hp & Htm & _).
    eapply consistent_frame; [done..|]. by apply consistent_clear_reactions.
Qed.

Lemma consistent_run (evs : list Event) (w : World) :
  consistent h w -> consistent h (run h evs w).
Proof.
  revert w. induction evs as [|ev evs IH]; intros w Hw; cbn; [done|].
  by apply IH, consistent_perform.
Qed.

Lemma reachable_consistent (w : World) : reachable h w -> consistent h w.
Proof. intros (o & evs & ->). apply consistent_run, consistent_fresh. Qed.

Lemma reachable_perform (ev : Event) (w : World) :
  reachable h w -> reachable h (perform h ev w).
Proof.
  intros (o & evs & ->). exists o, (evs ++ [ev]). unfold run. by rewrite foldl_app.
Qed.

(** ** The clock reading of a session stays with its engine *)

Lemma stamped_started_new (w : World) :
  stamped (length (profilers w)) (now h (reads w)) (started h w).
Proof.
  split; cbn.
  - by intros s [= <-] _.
  - intros e. rewrite lookup_app_r by lia. rewrite Nat.sub_diag. cbn.
    intros [= <-]. by left.
  - rewrite length_app. cbn. lia.
Qed.

Lemma stamped_started (p : nat) (S : number) (w : World) :
  stamped p S w -> stamped p S (started h w).
Proof.
  intros [_ Hre Hlt]. split; cbn.
  - intros s [= <-]. cbn. lia.
  - intros e. rewrite lookup_app_l by done. apply Hre.
  - rewrite length_app. lia.
Qed.

Lemma stamped_halted (p : nat) (S : number) (w : World)
    (s : ContinuousProfilerSession.t) :
  consistent h w ->
  ContinuousProfiler.session (this w) = Some s ->
  stamped p S w -> stamped p S (halted w s).
Proof.
  intros [_ Hlive _ _ Hno] Hs [Hse Hre Hlt]. split; cbn.
  - done.
  - intros e. rewrite list_lookup_alter. case_decide as Hp; [subst p|apply Hre].
    intros (e' & E & ->)%fmap_Some. cbn. right.
    assert (live w (ContinuousProfilerSession.profiler s) = true) as Hl
      by (apply Hlive; eauto).
    unfold live in Hl. rewrite E in Hl.
    rewrite (Hno _ e' E) by by destruct (Profiler.stopped e').
    cbn. f_equal. by apply Hse.
  - by rewrite length_alter.
Qed.

Lemma stamped_frame (p : nat) (S : number) (w w' : World) :
  this w' = this w -> profilers w' = profilers w ->
  stamped p S w -> stamped p S w'.
Proof. intros Ht Hp [H1 H2 H3]. split; rewrite ?Ht, ?Hp; done. Qed.

Lemma stamped_clear_reactions (p q : nat) (S : number) (w : World) :
  stamped p S w -> stamped p S (update_profiler clear_reactions q w).
Proof.
  intros [Hse Hre Hlt]. split; cbn.
  - done.
  - intros e. rewrite list_lookup_alter. case_decide; [|apply Hre].
    intros (e' & E & ->)%fmap_Some. by left.
  - by rewrite length_alter.
Qed.

Lemma stamped_start (p : nat) (S : number) (w : World) :
  stamped p S w -> stamped p S (settle (start h) w).
Proof.
  intros Hw. destruct (Profiler_defined h) eqn:Hc.
  - destruct (ContinuousProfiler.session (this w)) as [s|] eqn:Hs.
    + by rewrite (settle_start_active w s).
    + rewrite settle_start_idle by done. by apply stamped_started.
  - by rewrite settle_start_unsupported.
Qed.

Lemma stamped_stop (p : nat) (S : number) (w : World) :
  consistent h w -> stamped p S w -> stamped p S (settle stop w).
Proof.
  intros Hc Hw. destruct (ContinuousProfiler.session (this w)) as [s|] eqn:Hs.
  - rewrite (settle_stop_active w s) by done. by apply stamped_halted.
  - by rewrite settle_stop_idle.
Qed.

Lemma stamped_dispatch (p : nat) (S : number) (ls : list Callable) (w : World) :
  consistent h w -> stamped p S w -> stamped p S (dispatch h ls w).
Proof.
  revert w. induction ls as [|c ls IH]; intros w Hc Hw; cbn; [done|].
  apply IH; [by apply consistent_call|].
  rewrite settle_call. by apply stamped_start, stamped_stop.
Qed.

Lemma stamped_perform (p : nat) (S : number) (ev : Event) (w : World) :
  consistent h w -> stamped p S w -> stamped p S (perform h ev w).
Proof.
  intros Hc Hw. destruct ev as [| |id|q|q trace]; cbn.
  - by apply stamped_start.
  - by apply stamped_stop.
  - destruct (timers w !! id) as [tm|] eqn:Hid; [|done].
    destruct (consistent_timer_fires id tm w Hc Hid) as (s & Hs & _ & _ & Hh).
    rewrite settle_call, Hh. by apply stamped_start, stamped_halted.
  - destruct (profilers w !! q); [|done]. by apply stamped_dispatch.
  - destruct (profilers w !! q) as [e|]; [|done].
    destruct (react_frame (Profiler.reactions e) trace
                (update_profiler clear_reactions q w)) as (Ht & Hp & _).
    eapply stamped_frame; [done..|]. by apply stamped_clear_reactions.
Qed.

Lemma stamped_run (p : nat) (S : number) (evs : list Event) (w : World) :
  consistent h w -> stamped p S w -> stamped p S (run h evs w).
Proof.
  revert w. induction evs as [|ev evs IH]; intros w Hc Hw; cbn; [done|].
  apply IH; [by apply consistent_perform | by apply stamped_perform].
Qed.

Lemma delivered_app (w : World) (cs : list Call) (w' : World) :
  calls w' = calls w ++ cs ->
  delivered w' =
  delivered w ++ omap (fun c => match c with Callback t => Some t | _ => None end) cs.
Proof. intros E. unfold delivered. by rewrite E, omap_app. Qed.

(** ** The session slot and the live engines *)

Lemma live_profilers_session (w : World) :
  consistent h w ->
  live_profilers w =
  match ContinuousProfiler.session (this w) with
  | Some s => [ContinuousProfilerSession.profiler s]
  | None => []
  end.
Proof.
  intros [_ Hlive _ _ _]. unfold live_profilers.
  destruct (ContinuousProfiler.session (this w)) as [s|].
  - apply Permutation_singleton_r, NoDup_Permutation.
    + apply NoDup_filter, NoDup_seq.
    + apply NoDup_singleton.
    + intros x. rewrite list_elem_of_filter, elem_of_seq, list_elem_of_singleton, Hlive.
      split.
      * by intros [(s' & [= <-] & <-) _].
      * intros ->. assert (Hl : live w (ContinuousProfilerSession.profiler s) = true)
          by (apply Hlive; eauto).
        split; [eauto|]. unfold live in Hl.
        destruct (profilers w !! _) eqn:E; [|done].
        apply lookup_lt_Some in E. lia.
  - destruct (filter _ _) as [|x l] eqn:E; [done|].
    assert (Hx : x ∈ x :: l) by left. rewrite <- E in Hx.
    apply list_elem_of_filter in Hx as [(s & ? & _)%Hlive _]. done.
Qed.

(** C1: after every sequence of events (calls of [start] and [stop], timer
    rotations, buffer-full rotations, stop promises being fulfilled) the
    controller has at most one live engine instance, namely the one of its
    session if it has a session and none otherwise, and [stopped] is true
    exactly when the session slot is absent. *)
Theorem at_most_one_session
    (o : option ContinuousProfilerInitOptions.t) (evs : list Event) :
  let w := run h evs (fresh o) in
  length (live_profilers w) <= 1 /\
  live_profilers w =
    match ContinuousProfiler.session (this w) with
    | Some s => [ContinuousProfilerSession.profiler s]
    | None => []
    end /\
  (stopped w = true <-> ContinuousProfiler.session (this w) = None).
Proof.
  intros w.
  assert (Hw : consistent h w) by (apply reachable_consistent; by exists o, evs).
  rewrite (live_profilers_session w Hw). unfold stopped.
  destruct (ContinuousProfiler.session (this w)); cbn; repeat split; try done; lia.
Qed.

(** ** Construction *)



(** C10: a falsy number ([0], [-0] or [NaN]) supplied for [sampleInterval]
    or for [collectInterval] is replaced by the default, 10 and 10000; a
    truthy one is stored as given; a missing one gives the default. *)
Theorem falsy_options_take_defaults (x : number) (other : option number) :
  truthy x = false ->
  let given_sample :=
    Some {| ContinuousProfilerInitOptions.sampleInterval := Some x;
            ContinuousProfilerInitOptions.collectInterval := other |} in
  let given_collect :=
    Some {| ContinuousProfilerInitOptions.sampleInterval := other;
            ContinuousProfilerInitOptions.collectInterval := Some x |} in
  ContinuousProfilerOptions.sampleInterval
    (ContinuousProfiler.options (constructor given_sample)) = 10%float /\
  ContinuousProfilerOptions.collectInterval
    (ContinuousProfiler.options (constructor given_collect)) = 10000%float /\
  truthy 0%float = false /\
  (forall y : number, truthy y = true ->
     ContinuousProfilerOptions.sampleInterval
       (ContinuousProfiler.options
          (constructor
             (Some {| ContinuousProfilerInitOptions.sampleInterval := Some y;
                      ContinuousProfilerInitOptions.collectInterval := other |}))) = y /\
     ContinuousProfilerOptions.collectInterval
       (ContinuousProfiler.options
          (constructor
             (Some {| ContinuousProfilerInitOptions.sampleInterval := other;
                      ContinuousProfilerInitOptions.collectInterval := Some y |}))) = y).
Proof.
  intros Hx. cbn. unfold js_or. rewrite Hx.
  split; [done|]. split; [done|]. split; [done|].
  intros y Hy. cbn. by rewrite Hy.
Qed.

(** ** Errors and no-ops *)

Lemma start_in_accepting (g : Engine) (w : World) :
  (forall o, refuses g o = None) -> start_in h g w = start h w.
Proof.
  intros Hg. unfold start_in, start.
  destruct (negb (Profiler_defined h)); [done|].
  unfold mbind, M_bind, get_session.
  destruct (ContinuousProfiler.session (this w)); [done|]. cbn.
  unfold new_Profiler_in. by rewrite Hg.
Qed.

Lemma start_in_unsupported (g : Engine) (w : World) :
  Profiler_defined h = false ->
  start_in h g w = (Throw (Error "Profiler is not supported."), w).
Proof. intros Hc. unfold start_in. by rewrite Hc. Qed.

Lemma start_in_active (g : Engine) (w : World) (s : ContinuousProfilerSession.t) :
  Profiler_defined h = true ->
  ContinuousProfiler.session (this w) = Some s ->
  start_in h g w = (Normal tt, w).
Proof.
  intros Hc Hs. unfold start_in. rewrite Hc. cbn.
  unfold mbind, M_bind, get_session. by rewrite Hs.
Qed.

Lemma start_in_idle (g : Engine) (w : World) :
  Profiler_defined h = true ->
  ContinuousProfiler.session (this w) = None ->
  start_in h g w =
  match refuses g (session_profiler_init w) with
  | Some name => (Throw (HostException name), settle (performance_now h) w)
  | None => (Normal tt, started h w)
  end.
Proof.
  intros Hc Hs.
  destruct (refuses g (session_profiler_init w)) as [name|] eqn:Hg.
  - unfold start_in. rewrite Hc. cbn.
    unfold mbind, M_bind, get_session. rewrite Hs. cbn.
    unfold new_Profiler_in. cbn. unfold session_profiler_init in Hg.
    by rewrite Hg.
  - rewrite <- (start_idle w Hc Hs).
    unfold start_in, start. rewrite Hc. cbn.
    unfold mbind, M_bind, get_session. rewrite Hs. cbn.
    unfold new_Profiler_in. cbn. unfold session_profiler_init in Hg.
    by rewrite Hg.
Qed.

(** C7 (as amended): [start] throws the "not supported" error exactly when
    [Profiler] is undefined; it then changes nothing, [supported] is false,
    and [stop] resolves at once and changes nothing in every world such a
    page can reach.  Where [Profiler] is defined, [supported] is true and
    [start] returns normally if a session exists or if the engine
    constructor accepts the options; if the constructor throws, its
    exception leaves [start], after the clock was read and with no session,
    engine or timer created. *)
Theorem start_throws_iff_unsupported (g : Engine) (w : World) :
  (fst (start_in h g w) = Throw (Error "Profiler is not supported.") <->
   Profiler_defined h = false) /\
  (Profiler_defined h = false ->
     start_in h g w = (Throw (Error "Profiler is not supported."), w) /\
     supported h = false /\
     (reachable h w -> stop w = (Normal PromiseResolved, w))) /\
  (Profiler_defined h = true ->
     supported h = true /\
     match ContinuousProfiler.session (this w), refuses g (session_profiler_init w) with
     | Some _, _ => start_in h g w = (Normal tt, w)
     | None, None => start_in h g w = (Normal tt, started h w)
     | None, Some name =>
         start_in h g w = (Throw (HostException name), settle (performance_now h) w) /\
         stopped (settle (performance_now h) w) = true /\
         profilers (settle (performance_now h) w) = profilers w /\
         timers (settle (performance_now h) w) = timers w
     end).
Proof.
  assert (Hdef : Profiler_defined h = true ->
     match ContinuousProfiler.session (this w), refuses g (session_profiler_init w) with
     | Some _, _ => start_in h g w = (Normal tt, w)
     | None, None => start_in h g w = (Normal tt, started h w)
     | None, Some name =>
         start_in h g w = (Throw (HostException name), settle (performance_now h) w) /\
         stopped (settle (performance_now h) w) = true /\
         profilers (settle (performance_now h) w) = profilers w /\
         timers (settle (performance_now h) w) = timers w
     end).
  { intros Hc. destruct (ContinuousProfiler.session (this w)) as [s|] eqn:Hs.
    - by apply (start_in_active g w s).
    - pose proof (start_in_idle g w Hc Hs) as E.
      destruct (refuses g (session_profiler_init w)) as [name|]; [|done].
      split; [done|]. unfold stopped, settle. cbn. by rewrite Hs. }
  split; [split|split].
  - intros Ht. destruct (Profiler_defined h) eqn:Hc; [|done].
    specialize (Hdef eq_refl).
    destruct (ContinuousProfiler.session (this w));
      [|destruct (refuses g (session_profiler_init w)); [destruct Hdef as [Hdef _]|]];
      rewrite Hdef in Ht; discriminate Ht.
  - intros Hc. by rewrite start_in_unsupported.
  - intros Hc. split; [by apply start_in_unsupported|]. split; [done|].
    intros Hw. apply reachable_consistent in Hw. apply stop_idle.
    destruct (ContinuousProfiler.session (this w)) as [s|] eqn:Hs; [|done].
    pose proof (session_needs_engine h w Hw s Hs). congruence.
  - intros Hc. split; [done|]. by apply Hdef.
Qed.

(** C8: where a session exists, [start] returns normally and leaves the
    world as it was: the same session (start reading, engine, timer id),
    the same timer table, no call made on any collaborator.  Hence calling
    [start] twice in a row leaves what calling it once leaves. *)
Theorem start_idempotent (w : World) :
  reachable h w ->
  (forall s, ContinuousProfiler.session (this w) = Some s ->
             start h w = (Normal tt, w)) /\
  perform h CallStart (perform h CallStart w) = perform h CallStart w.
Proof.
  intros Hw. apply reachable_consistent in Hw.
  split.
  - intros s Hs. apply (start_active w s); [|done].
    by apply (session_needs_engine h w Hw s).
  - cbn. destruct (Profiler_defined h) eqn:Hc.
    + destruct (ContinuousProfiler.session (this w)) as [s|] eqn:Hs.
      * by rewrite !(settle_start_active w s).
      * rewrite (settle_start_idle w) by done.
        by rewrite (settle_start_active (started h w) _ Hc eq_refl).
    + by rewrite !settle_start_unsupported.
Qed.

(** C9: without a session [stop] returns the resolved promise and leaves
    the world as it was, so no callback is invoked.  After one [start], two
    calls of [stop] in a row leave what one leaves; nothing is delivered
    until the stop promise of the engine is fulfilled, exactly one trace is
    delivered when it is, and none after. *)
Theorem stop_idempotent (w : World) (trace : ProfilerTrace.t) :
  stopped w = true ->
  stop w = (Normal PromiseResolved, w) /\
  (Profiler_defined h = true ->
   let p := length (profilers w) in
   let w1 := run h [CallStart; CallStop] w in
   let w2 := run h [CallStart; CallStop; CallStop] w in
   let w3 := perform h (StopResolves p trace) w2 in
   stop w1 = (Normal PromiseResolved, w1) /\
   w2 = w1 /\
   delivered w2 = delivered w /\
   (exists t, delivered w3 = delivered w ++ [t]) /\
   (forall trace', perform h (StopResolves p trace') w3 = w3)).
Proof.
  unfold stopped. intros Hs.
  destruct (ContinuousProfiler.session (this w)) eqn:Hn; [done|]. clear Hs.
  split; [by apply stop_idle|]. intros Hc. cbn.
  rewrite settle_start_idle by done.
  rewrite (settle_stop_active (started h w) _ eq_refl).
  set (w1 := halted _ _).
  assert (Hw1 : ContinuousProfiler.session (this w1) = None) by done.
  rewrite (settle_stop_idle w1 Hw1).
  assert (Hp : profilers w1 !! length (profilers w) =
               Some (retire (now h (reads w))
                       {| Profiler.init := session_profiler_init w;
                          Profiler.stopped := false;
                          Profiler.listeners := [SampleBufferFullListener];
                          Profiler.reactions := [] |})).
  { unfold w1, halted. cbn. rewrite alter_app_last.
    rewrite lookup_app_r by lia. by rewrite Nat.sub_diag. }
  assert (Hcalls : calls w1 = calls w ++
            [PerformanceNow (now h (reads w));
             NewProfiler (length (profilers w)) (session_profiler_init w);
             SetTimeout (nextTimeoutId w) (delay (rotation_timer w));
             AddEventListener (length (profilers w));
             ProfilerStop (length (profilers w));
             ClearTimeout (nextTimeoutId w)]).
  { unfold w1, halted, started. cbn. by rewrite <- app_assoc. }
  clearbody w1.
  split; [by apply stop_idle|]. split; [done|]. split; [|split].
  - rewrite (delivered_app w _ w1 Hcalls). cbn. by rewrite app_nil_r.
  - rewrite Hp. cbn. rewrite settle_thenCallback. eexists.
    erewrite (delivered_app w); last first.
    { cbn. rewrite Hcalls. by rewrite <- !app_assoc. }
    cbn. done.
  - intros trace'. rewrite Hp. cbn. rewrite settle_thenCallback. cbn.
    rewrite list_lookup_alter_eq, Hp. cbn.
    unfold update_profiler. cbn. by rewrite list_alter_alter_eq.
Qed.

(** ** Delivery *)

(** C3: a session created when the clock read [S] (time origin [T0]), whose
    engine's stop promise is fulfilled with a raw trace when the clock reads
    [E], whatever events were handled in between, delivers to the consumer that trace
    with [start] = T0 + S and [end] = T0 + E, as one callback invocation. *)
Theorem timestamp_normalization
    (w : World) (evs : list Event) (trace : ProfilerTrace.t) :
  reachable h w ->
  Profiler_defined h = true ->
  stopped w = true ->
  let p := length (profilers w) in
  let S := now h (reads w) in
  let w1 := perform h CallStart w in
  let w2 := run h evs w1 in
  let E := now h (reads w2) in
  pending w2 p ->
  (exists id,
     ContinuousProfiler.session (this w1) =
     Some {| ContinuousProfilerSession.profiler := p;
             ContinuousProfilerSession.start := S;
             ContinuousProfilerSession.timeoutId := id |}) /\
  delivered (perform h (StopResolves p trace) w2) =
  delivered w2 ++
    [{| ContinuousProfilerTrace.trace := trace;
        ContinuousProfilerTrace.start := (timeOrigin h + S)%float;
        ContinuousProfilerTrace.end_ := (timeOrigin h + E)%float |}].
Proof.
  intros Hw Hc Hs p S w1 w2 E (e & He & Hre).
  apply reachable_consistent in Hw. unfold stopped in Hs.
  destruct (ContinuousProfiler.session (this w)) eqn:Hn; [done|]. clear Hs.
  assert (E1 : w1 = started h w) by by apply settle_start_idle.
  split; [rewrite E1; by eexists|].
  assert (Hst : stamped p S w2).
  { apply stamped_run; rewrite E1.
    - by apply consistent_started.
    - apply stamped_started_new. }
  destruct (stamped_reactions p S w2 Hst e He) as [Hnil|Hone]; [done|].
  cbn. rewrite He, Hone. cbn. rewrite settle_thenCallback.
  erewrite delivered_app; [|done]. done.
Qed.

(** ** Rotation *)

Lemma perform_trigger (w : World) (s : ContinuousProfilerSession.t) (ev : Event) :
  consistent h w ->
  ContinuousProfiler.session (this w) = Some s ->
  trigger w ev ->
  perform h ev w = started h (halted w s).
Proof.
  intros Hw Hs Ht.
  assert (Hc : Profiler_defined h = true)
    by by apply (session_needs_engine h w Hw s).
  destruct ev as [| |id|p|p trace]; cbn in Ht; try done; unfold perform.
  - destruct Ht as [tm Hid]. rewrite Hid.
    destruct (consistent_timer_fires id tm w Hw Hid) as (s' & Hs' & _ & _ & Hh).
    assert (s' = s) as -> by congruence.
    rewrite settle_call, Hh. by apply settle_start_idle.
  - destruct Ht as [e He]. rewrite He, (one_listener h w Hw p e He).
    unfold dispatch. rewrite settle_call, (settle_stop_active w s) by done.
    by apply settle_start_idle.
Qed.

Lemma pending_halted (w : World) (s : ContinuousProfilerSession.t) :
  consistent h w ->
  ContinuousProfiler.session (this w) = Some s ->
  ContinuousProfilerSession.profiler s < length (profilers w) /\
  pending (halted w s) (ContinuousProfilerSession.profiler s).
Proof.
  intros Hw Hs.
  assert (Hl : live w (ContinuousProfilerSession.profiler s) = true)
    by (apply (live_is_session h w Hw); eauto).
  unfold live in Hl.
  destruct (profilers w !! _) as [e|] eqn:He; [|done].
  split; [by apply lookup_lt_Some in He|].
  exists (retire (ContinuousProfilerSession.start s) e). split.
  - cbn. by rewrite list_lookup_alter_eq, He.
  - cbn. by destruct (Profiler.reactions e).
Qed.

Lemma pending_started (w : World) (p : nat) :
  pending w p -> pending (started h w) p.
Proof.
  intros (e & He & Hre). exists e. split; [|done].
  cbn. by apply lookup_app_l_Some.
Qed.

(** C5: in a world with a session, every trigger of a rotation (the pending
    timer firing, or a buffer-full event) runs [stop] and then [start] and
    leaves the same world as the other.  The calls it makes are, in order:
    stop of the old engine, cancellation of the old timer, then the clock
    reading, the construction of the new engine, its timer and its listener.
    The new engine is not the old one, and when the handler returns the old
    engine's stop promise is still unfulfilled and nothing was delivered:
    [start] did not wait for it. *)
Theorem rotation_stop_then_start
    (w : World) (s : ContinuousProfilerSession.t) (ev : Event) :
  reachable h w ->
  ContinuousProfiler.session (this w) = Some s ->
  trigger w ev ->
  let p := ContinuousProfilerSession.profiler s in
  let p' := length (profilers w) in
  let w' := perform h ev w in
  timeoutCallback h = sampleBufferFullListener h /\
  w' = settle (start h) (settle stop w) /\
  calls w' = calls w ++
    [ProfilerStop p;
     ClearTimeout (ContinuousProfilerSession.timeoutId s);
     PerformanceNow (now h (reads w));
     NewProfiler p' (session_profiler_init w);
     SetTimeout (nextTimeoutId w)
       (ContinuousProfilerOptions.collectInterval (ContinuousProfiler.options (this w)));
     AddEventListener p'] /\
  p < p' /\
  ContinuousProfiler.session (this w') =
    Some {| ContinuousProfilerSession.profiler := p';
            ContinuousProfilerSession.start := now h (reads w);
            ContinuousProfilerSession.timeoutId := nextTimeoutId w |} /\
  pending w' p /\
  delivered w' = delivered w.
Proof.
  intros Hw Hs Ht p p' w'. apply reachable_consistent in Hw.
  assert (Hc : Profiler_defined h = true)
    by by apply (session_needs_engine h w Hw s).
  assert (E : w' = started h (halted w s)) by by apply perform_trigger.
  destruct (pending_halted w s Hw Hs) as [Hlt Hpend].
  assert (Hcalls : calls w' = calls w ++
    [ProfilerStop p;
     ClearTimeout (ContinuousProfilerSession.timeoutId s);
     PerformanceNow (now h (reads w));
     NewProfiler p' (session_profiler_init w);
     SetTimeout (nextTimeoutId w)
       (ContinuousProfilerOptions.collectInterval (ContinuousProfiler.options (this w)));
     AddEventListener p']).
  { rewrite E. cbn. rewrite length_alter. by rewrite <- app_assoc. }
  split; [done|]. split; [|split; [|split; [|split; [|split]]]].
  - rewrite E, (settle_stop_active w s) by done.
    symmetry. by apply settle_start_idle.
  - done.
  - done.
  - rewrite E. cbn. by rewrite length_alter.
  - rewrite E. by apply pending_started.
  - rewrite (delivered_app w _ w' Hcalls). cbn. by rewrite app_nil_r.
Qed.

(** C6: [stop] with an active session returns the pending promise having
    already emptied the session slot and cancelled the rotation timer: in
    the world it returns in, [stopped] is true, the timer table has no entry
    for the session's timer (firing it does nothing), the engine's stop
    promise is still unfulfilled and nothing was delivered; the calls it
    made are the engine's stop and [clearTimeout].  A [start] made right
    then returns normally and creates a new session on a new engine while
    the old stop is still in flight. *)
Theorem stop_clears_synchronously (w : World) (s : ContinuousProfilerSession.t) :
  reachable h w ->
  ContinuousProfiler.session (this w) = Some s ->
  let p := ContinuousProfilerSession.profiler s in
  let w' := settle stop w in
  fst (stop w) = Normal (PromiseThen p) /\
  stopped w' = true /\
  timers w' !! ContinuousProfilerSession.timeoutId s = None /\
  perform h (TimerFires (ContinuousProfilerSession.timeoutId s)) w' = w' /\
  pending w' p /\
  delivered w' = delivered w /\
  start h w' = (Normal tt, started h w') /\
  stopped (started h w') = false /\
  live (started h w') (length (profilers w)) = true /\
  p < length (profilers w) /\
  pending (started h w') p /\
  calls w' = calls w ++
    [ProfilerStop p; ClearTimeout (ContinuousProfilerSession.timeoutId s)].
Proof.
  intros Hw Hs p w'. apply reachable_consistent in Hw.
  assert (Hc : Profiler_defined h = true)
    by by apply (session_needs_engine h w Hw s).
  assert (E : w' = halted w s) by by apply settle_stop_active.
  destruct (pending_halted w s Hw Hs) as [Hlt Hpend].
  assert (Htm : timers w' !! ContinuousProfilerSession.timeoutId s = None).
  { rewrite E. cbn. apply lookup_delete_eq. }
  split; [by rewrite (stop_active w s)|].
  split; [by rewrite E|].
  split; [done|].
  split; [cbn; by rewrite Htm|].
  split; [by rewrite E|].
  split.
  { rewrite (delivered_app w [ProfilerStop p;
                                ClearTimeout (ContinuousProfilerSession.timeoutId s)] w')
      by by rewrite E.
    cbn. by rewrite app_nil_r. }
  split; [apply start_idle; [done | by rewrite E]|].
  split; [done|].
  split.
  { unfold live. cbn. rewrite E. cbn.
    rewrite lookup_app_r by (rewrite length_alter; lia).
    by rewrite length_alter, Nat.sub_diag. }
  split; [done|].
  split; [apply pending_started; by rewrite E|].
  by rewrite E.
Qed.

End Properties.

(** ** Concrete runs *)

Example Math_round_samples :
  (Math_round 2.5 = 3 /\ Math_round (-2.5) = -2 /\
   Math_round 0x1.fffffffffffffp-2 = 0 /\
   Math_round (-0.25) = neg_zero /\
   Math_round 1499.5 = 1500 /\
   Math_round 1499.25 = 1499 /\
   Math_round 4503599627370495.5 = 4503599627370496 /\
   Math_round infinity = infinity /\ Math_round nan = nan)%float.
Proof. repeat split; reflexivity. Qed.

(** On integer intervals the binary64 computation of the buffer size is
    the exact rounding: checked for every sample interval from 1 to 20 and
    every collect interval from 0 to 1500. *)
Example derived_maxBufferSize_exact_on_grid :
  forallb
    (fun s =>
       forallb
         (fun c =>
            PrimFloat.eqb
              (derived_maxBufferSize (number_of_Z s) (number_of_Z c))
              (number_of_Z (exact_round_half_up s c)))
         (seqZ 0 1501))
    (seqZ 1 20) = true.
Proof. vm_compute. reflexivity. Qed.

(** Every constructed engine keeps the listener [start] gave it, so a
    buffer-full event of any of them, the session's or an older one, runs
    the rotation on the current session. *)
Lemma superseded_engine_still_rotates
    (h : Host) (w : World) (s : ContinuousProfilerSession.t) (q : nat) :
  reachable h w ->
  ContinuousProfiler.session (this w) = Some s ->
  q < length (profilers w) ->
  perform h (SampleBufferFull q) w = started h (halted w s).
Proof.
  intros Hw Hs Hq. apply perform_trigger; [by apply reachable_consistent|done|].
  by apply lookup_lt_is_Some.
Qed.

(** C4: a buffer-full event of a superseded engine is not a no-op in the
    code.  After [start] and a timer rotation, engine 0 is stopped and
    engine 1 is the session's; a buffer-full event of engine 0 then stops
    engine 1, cancels its timer, and starts engine 2: a second rotation. *)
Theorem stale_buffer_full_rotates_again :
  let w := run browser [CallStart; TimerFires 1] (fresh None) in
  let w' := perform browser (SampleBufferFull 0) w in
  live w 0 = false /\
  live_profilers w = [1] /\
  calls w' = calls w ++
    [ProfilerStop 1; ClearTimeout 2; PerformanceNow 1250%float;
     NewProfiler 2 {| ProfilerInitOptions.sampleInterval := 10%float;
                      ProfilerInitOptions.maxBufferSize := 1500%float |};
     SetTimeout 3 10000%float; AddEventListener 2] /\
  live_profilers w' = [2] /\
  w' <> w.
Proof.
  vm_compute. repeat split. intros E. discriminate E.
Qed.

Lemma timestamp_normalization_witness :
  reachable browser (fresh None) /\
  Profiler_defined browser = true /\
  stopped (fresh None) = true /\
  pending (run browser [CallStop] (perform browser CallStart (fresh None))) 0 /\
  delivered (perform browser (StopResolves 0 empty_trace)
               (run browser [CallStop] (perform browser CallStart (fresh None)))) =
  delivered (run browser [CallStop] (perform browser CallStart (fresh None))) ++
  [{| ContinuousProfilerTrace.trace := empty_trace;
      ContinuousProfilerTrace.start := (1000000 + 250)%float;
      ContinuousProfilerTrace.end_ := (1000000 + 750)%float |}].
Proof.
  assert (H1 : reachable browser (fresh None)) by (exists None, []; reflexivity).
  assert (H2 : Profiler_defined browser = true) by reflexivity.
  assert (H3 : stopped (fresh None) = true) by reflexivity.
  assert (H4 : pending (run browser [CallStop] (perform browser CallStart (fresh None))) 0).
  { eexists. split; [reflexivity | discriminate]. }
  split; [exact H1|]. split; [exact H2|]. split; [exact H3|]. split; [exact H4|].
  exact (proj2 (timestamp_normalization browser (fresh None) [CallStop] empty_trace
                  H1 H2 H3 H4)).
Defined.

Lemma rotation_stop_then_start_witness :
  let w := run browser [CallStart] (fresh None) in
  let s := {| ContinuousProfilerSession.profiler := 0;
              ContinuousProfilerSession.start := 250%float;
              ContinuousProfilerSession.timeoutId := 1 |} in
  reachable browser w /\
  ContinuousProfiler.session (this w) = Some s /\
  trigger w (TimerFires 1) /\
  trigger w (SampleBufferFull 0) /\
  perform browser (TimerFires 1) w = settle (start browser) (settle stop w) /\
  perform browser (SampleBufferFull 0) w = settle (start browser) (settle stop w).
Proof.
  intros w s.
  assert (H1 : reachable browser w) by (exists None, [CallStart]; reflexivity).
  assert (H2 : ContinuousProfiler.session (this w) = Some s) by reflexivity.
  assert (H3 : trigger w (TimerFires 1)) by (eexists; reflexivity).
  assert (H4 : trigger w (SampleBufferFull 0)) by (eexists; reflexivity).
  split; [exact H1|]. split; [exact H2|]. split; [exact H3|]. split; [exact H4|].
  split.
  - exact (proj1 (proj2 (rotation_stop_then_start browser w s (TimerFires 1) H1 H2 H3))).
  - exact (proj1 (proj2 (rotation_stop_then_start browser w s (SampleBufferFull 0) H1 H2 H4))).
Defined.

Lemma stop_clears_synchronously_witness :
  let w := run browser [CallStart] (fresh None) in
  let s := {| ContinuousProfilerSession.profiler := 0;
              ContinuousProfilerSession.start := 250%float;
              ContinuousProfilerSession.timeoutId := 1 |} in
  reachable browser w /\
  ContinuousProfiler.session (this w) = Some s /\
  stopped (settle stop w) = true /\
  timers (settle stop w) !! 1 = None /\
  start browser (settle stop w) = (Normal tt, started browser (settle stop w)).
Proof.
  intros w s.
  assert (H1 : reachable browser w) by (exists None, [CallStart]; reflexivity).
  assert (H2 : ContinuousProfiler.session (this w) = Some s) by reflexivity.
  pose proof (stop_clears_synchronously browser w s H1 H2) as H.
  split; [exact H1|]. split; [exact H2|].
  split; [exact (proj1 (proj2 H))|].
  split; [exact (proj1 (proj2 (proj2 H)))|].
  exact (proj1 (proj2 (proj2 (proj2 (proj2 (proj2 (proj2 H))))))).
Defined.

Lemma start_throws_iff_unsupported_witness :
  Profiler_defined legacy_browser = false /\
  reachable legacy_browser (fresh None) /\
  start_in legacy_browser policy_missing (fresh None) =
    (Throw (Error "Profiler is not supported."), fresh None) /\
  supported legacy_browser = false /\
  stop (fresh None) = (Normal PromiseResolved, fresh None) /\
  Profiler_defined browser = true /\
  start_in browser accepting (fresh None) = (Normal tt, started browser (fresh None)) /\
  start_in browser policy_missing (fresh None) =
    (Throw (HostException "NotAllowedError"), settle (performance_now browser) (fresh None)).
Proof.
  assert (H1 : Profiler_defined legacy_browser = false) by reflexivity.
  assert (H2 : reachable legacy_browser (fresh None)) by (exists None, []; reflexivity).
  assert (H3 : Profiler_defined browser = true) by reflexivity.
  pose proof (proj1 (proj2 (start_throws_iff_unsupported legacy_browser policy_missing
                              (fresh None))) H1) as (Ha & Hb & Hc).
  split; [exact H1|]. split; [exact H2|]. split; [exact Ha|]. split; [exact Hb|].
  split; [exact (Hc H2)|]. split; [exact H3|]. split.
  - exact (proj2 (proj2 (proj2 (start_throws_iff_unsupported browser accepting
                                   (fresh None))) H3)).
  - exact (proj1 (proj2 (proj2 (proj2 (start_throws_iff_unsupported browser policy_missing
                                          (fresh None))) H3))).
Defined.

(** C7 as first stated fails in its last part: on a page where [Profiler]
    is defined but the engine constructor throws (no document policy),
    [start] throws. *)
Lemma start_throws_with_Profiler_defined :
  ~ (Profiler_defined browser = true ->
     fst (start_in browser policy_missing (fresh None)) = Normal tt).
Proof. intros H. specialize (H eq_refl). discriminate H. Qed.

Lemma start_idempotent_witness :
  let w := run browser [CallStart] (fresh None) in
  reachable browser w /\
  ContinuousProfiler.session (this w) =
    Some {| ContinuousProfilerSession.profiler := 0;
            ContinuousProfilerSession.start := 250%float;
            ContinuousProfilerSession.timeoutId := 1 |} /\
  start browser w = (Normal tt, w) /\
  perform browser CallStart (perform browser CallStart w) = perform browser CallStart w.
Proof.
  intros w.
  assert (H1 : reachable browser w) by (exists None, [CallStart]; reflexivity).
  assert (H2 : ContinuousProfiler.session (this w) =
    Some {| ContinuousProfilerSession.profiler := 0;
            ContinuousProfilerSession.start := 250%float;
            ContinuousProfilerSession.timeoutId := 1 |}) by reflexivity.
  split; [exact H1|]. split; [exact H2|].
  split.
  - exact (proj1 (start_idempotent browser w H1) _ H2).
  - exact (proj2 (start_idempotent browser w H1)).
Defined.

Lemma stop_idempotent_witness :
  stopped (fresh None) = true /\
  Profiler_defined browser = true /\
  stop (fresh None) = (Normal PromiseResolved, fresh None) /\
  run browser [CallStart; CallStop; CallStop] (fresh None) =
    run browser [CallStart; CallStop] (fresh None) /\
  exists t,
    delivered (perform browser (StopResolves 0 empty_trace)
                 (run browser [CallStart; CallStop; CallStop] (fresh None))) =
    delivered (fresh None) ++ [t].
Proof.
  assert (H1 : stopped (fresh None) = true) by reflexivity.
  assert (H2 : Profiler_defined browser = true) by reflexivity.
  pose proof (stop_idempotent browser (fresh None) empty_trace H1) as [Ha Hb].
  specialize (Hb H2).
  split; [exact H1|]. split; [exact H2|]. split; [exact Ha|].
  split; [exact (proj1 (proj2 Hb))|].
  exact (proj1 (proj2 (proj2 (proj2 Hb)))).
Defined.

Lemma falsy_options_take_defaults_witness :
  truthy 0%float = false /\
  ContinuousProfilerOptions.sampleInterval
    (ContinuousProfiler.options
       (constructor
          (Some {| ContinuousProfilerInitOptions.sampleInterval := Some 0%float;
                   ContinuousProfilerInitOptions.collectInterval := Some 500%float |})))
  = 10%float /\
  ContinuousProfilerOptions.collectInterval
    (ContinuousProfiler.options
       (constructor
          (Some {| ContinuousProfilerInitOptions.sampleInterval := Some 500%float;
                   ContinuousProfilerInitOptions.collectInterval := Some 0%float |})))
  = 10000%float.
Proof.
  assert (H1 : truthy 0%float = false) by reflexivity.
  pose proof (falsy_options_take_defaults 0%float (Some 500%float) H1) as (Ha & Hb & _).
  split; [exact H1|]. split; [exact Ha | exact Hb].
Defined.

(** * Further properties of the controller *)

Section Coverage.
Variable h : Host.

(** ** An induction principle for the event loop

    Whatever the event, a reachable world changes by a [start] that creates
    a session, by a [stop] that retires one, by both in that order, or by
    the reactions of one stop promise. *)
Lemma run_preserves (P : World -> Prop) :
  (forall w, reachable h w -> P w -> Profiler_defined h = true ->
             ContinuousProfiler.session (this w) = None -> P (started h w)) ->
  (forall w s, reachable h w -> P w ->
               ContinuousProfiler.session (this w) = Some s -> P (halted w s)) ->
  (forall w p e trace, reachable h w -> P w -> profilers w !! p = Some e ->
     P (react h (Profiler.reactions e) trace (update_profiler clear_reactions p w))) ->
  forall evs w, reachable h w -> P w -> P (run h evs w).
Proof.
  intros Hstart Hstop Hreact.
  assert (Hs1 : forall w, reachable h w -> P w -> P (settle (start h) w)).
  { intros w Hr Hw. destruct (Profiler_defined h) eqn:Hc.
    - destruct (ContinuousProfiler.session (this w)) as [s|] eqn:Hs.
      + by rewrite (settle_start_active h w s).
      + rewrite settle_start_idle by done. by apply Hstart.
    - by rewrite settle_start_unsupported. }
  assert (Hs2 : forall w, reachable h w -> P w -> P (settle stop w)).
  { intros w Hr Hw. destruct (ContinuousProfiler.session (this w)) as [s|] eqn:Hs.
    - rewrite (settle_stop_active w s) by done. by apply Hstop.
    - by rewrite settle_stop_idle. }
  assert (Hrot : forall w, reachable h w -> P w ->
                           P (settle (start h) (settle stop w))).
  { intros w Hr Hw. apply Hs1; [apply (reachable_perform h CallStop w Hr)|].
    by apply Hs2. }
  induction evs as [|ev evs IH]; intros w Hr Hw; cbn; [done|].
  apply IH; [by apply reachable_perform|].
  pose proof (reachable_consistent h w Hr) as Hc.
  destruct ev as [| |id|p|p trace]; unfold perform.
  - by apply Hs1.
  - by apply Hs2.
  - destruct (timers w !! id) as [tm|] eqn:Hid; [|done].
    destruct (consistent_timer_fires h id tm w Hc Hid) as (s & Hs & _ & _ & Hh).
    rewrite settle_call, Hh, <- (settle_stop_active w s Hs). by apply Hrot.
  - destruct (profilers w !! p) as [e|] eqn:He; [|done].
    rewrite (one_listener h w Hc p e He). unfold dispatch.
    rewrite settle_call. by apply Hrot.
  - destruct (profilers w !! p) as [e|] eqn:He; [|done]. by apply Hreact.
Qed.

Lemma reachable_fresh (o : option ContinuousProfilerInitOptions.t) :
  reachable h (fresh o).
Proof. by exists o, []. Qed.

(** ** A page without the engine *)

(** X1: on a page where [Profiler] is undefined nothing the event loop can
    do changes anything: after every sequence of events the world is the
    one the constructor left (no session, no engine, no timer, no call on a
    collaborator, nothing delivered). *)
Theorem unsupported_page_is_inert
    (o : option ContinuousProfilerInitOptions.t) (evs : list Event) :
  Profiler_defined h = false ->
  run h evs (fresh o) = fresh o.
Proof.
  intros Hc. induction evs as [|ev evs IH]; [done|].
  change (run h evs (perform h ev (fresh o)) = fresh o).
  assert (E : perform h ev (fresh o) = fresh o); [|by rewrite E].
  destruct ev as [| |id|p|p trace]; unfold perform.
  - by apply settle_start_unsupported.
  - by apply settle_stop_idle.
  - done.
  - done.
  - done.
Qed.

(** ** The options *)

Lemma run_options (o : option ContinuousProfilerInitOptions.t) (evs : list Event) :
  ContinuousProfiler.options (this (run h evs (fresh o))) =
  ContinuousProfiler.options (constructor o).
Proof.
  apply (run_preserves
           (fun w => ContinuousProfiler.options (this w) =
                     ContinuousProfiler.options (constructor o)));
    try done; [|apply reachable_fresh].
  intros w p e trace _ Hw _.
  by destruct (react_frame h (Profiler.reactions e) trace
                 (update_profiler clear_reactions p w)) as (-> & _).
Qed.

Lemma run_configured (o : option ContinuousProfilerInitOptions.t) (evs : list Event) :
  configured (run h evs (fresh o)).
Proof.
  apply (run_preserves configured); [| | |apply reachable_fresh|done].
  - intros w _ Hw _ _ p e [[_ He]|[_ <-]]%lookup_snoc_Some; [|done].
    by apply (Hw p).
  - intros w s _ Hw _ p e. cbn. rewrite list_lookup_alter.
    case_decide; [|apply Hw]. intros (e' & E & ->)%fmap_Some. cbn.
    exact (Hw _ e' E).
  - intros w p e trace _ Hw _ q e'.
    destruct (react_frame h (Profiler.reactions e) trace
                (update_profiler clear_reactions p w)) as (Ht & -> & _).
    unfold session_profiler_init. rewrite Ht. cbn. rewrite list_lookup_alter.
    case_decide; [|apply Hw]. intros (e'' & E & ->)%fmap_Some. cbn.
    exact (Hw _ e'' E).
Qed.

(** X2: the options computed by the constructor are never changed, and
    every engine instance the controller ever constructs is given the
    [sampleInterval] and the [maxBufferSize] of those options. *)
Theorem engines_share_the_constructor_options
    (o : option ContinuousProfilerInitOptions.t) (evs : list Event) :
  let w := run h evs (fresh o) in
  let c := ContinuousProfiler.options (constructor o) in
  ContinuousProfiler.options (this w) = c /\
  Forall
    (fun e => Profiler.init e =
              {| ProfilerInitOptions.sampleInterval :=
                   ContinuousProfilerOptions.sampleInterval c;
                 ProfilerInitOptions.maxBufferSize :=
                   ContinuousProfilerOptions.maxBufferSize c |})
    (profilers w).
Proof.
  intros w c. split; [apply run_options|].
  apply Forall_lookup. intros p e He.
  rewrite (run_configured o evs p e He).
  unfold session_profiler_init. by rewrite run_options.
Qed.

(** X7: whatever options the constructor is given (none, an object lacking
    a key, a falsy or a truthy number), the intervals it stores are truthy
    numbers, so never [0], [-0] or [NaN]: the division that derives the
    buffer size never has a zero or [NaN] divisor.  A missing key gives the
    default whatever the other key holds. *)
Theorem stored_intervals_are_truthy (o : option ContinuousProfilerInitOptions.t) :
  let c := ContinuousProfiler.options (constructor o) in
  truthy (ContinuousProfilerOptions.sampleInterval c) = true /\
  truthy (ContinuousProfilerOptions.collectInterval c) = true /\
  (js_and o ContinuousProfilerInitOptions.sampleInterval = None ->
   ContinuousProfilerOptions.sampleInterval c = 10%float) /\
  (js_and o ContinuousProfilerInitOptions.collectInterval = None ->
   ContinuousProfilerOptions.collectInterval c = 10000%float).
Proof.
  cbn. unfold js_or.
  destruct (js_and o ContinuousProfilerInitOptions.sampleInterval) as [x|];
    destruct (js_and o ContinuousProfilerInitOptions.collectInterval) as [y|];
    try destruct (truthy x) eqn:Hx; try destruct (truthy y) eqn:Hy; done.
Qed.

(** ** Timers *)

(** X3: after every sequence of events the timer table holds exactly the
    rotation timer of the active session, scheduled with the stored
    [collectInterval], and nothing while stopped; so any other timer id
    (one cancelled by [stop], or one that already fired) does nothing when
    it fires. *)
Theorem pending_timer_is_the_sessions
    (o : option ContinuousProfilerInitOptions.t) (evs : list Event) :
  let w := run h evs (fresh o) in
  timers w =
    match ContinuousProfiler.session (this w) with
    | Some s =>
        {[ ContinuousProfilerSession.timeoutId s :=
             {| handler := TimeoutCallback;
                delay := ContinuousProfilerOptions.collectInterval
                           (ContinuousProfiler.options (constructor o)) |} ]}
    | None => ∅
    end /\
  forall id,
    (exists s, ContinuousProfiler.session (this w) = Some s /\
               ContinuousProfilerSession.timeoutId s = id) \/
    perform h (TimerFires id) w = w.
Proof.
  intros w.
  assert (Hw : consistent h w) by (apply reachable_consistent; by exists o, evs).
  pose proof (timer_is_session h w Hw) as Htm.
  unfold rotation_timer in Htm. unfold w in Htm at 3. rewrite run_options in Htm.
  split; [done|]. intros id. unfold perform. rewrite Htm.
  destruct (ContinuousProfiler.session (this w)) as [s|]; [|by right].
  destruct (decide (ContinuousProfilerSession.timeoutId s = id)) as [<-|Hne].
  - left. by exists s.
  - right. by rewrite lookup_singleton_ne.
Qed.

(** ** Delivery happens in reactions only *)

Lemma delivered_start (w : World) : delivered (settle (start h) w) = delivered w.
Proof.
  destruct (Profiler_defined h) eqn:Hc.
  - destruct (ContinuousProfiler.session (this w)) as [s|] eqn:Hs.
    + by rewrite (settle_start_active h w s).
    + rewrite settle_start_idle by done.
      rewrite (delivered_app w _ (started h w) eq_refl). cbn. by rewrite app_nil_r.
  - by rewrite settle_start_unsupported.
Qed.

Lemma delivered_stop (w : World) : delivered (settle stop w) = delivered w.
Proof.
  destruct (ContinuousProfiler.session (this w)) as [s|] eqn:Hs.
  - rewrite (settle_stop_active w s) by done.
    rewrite (delivered_app w _ (halted w s) eq_refl). cbn. by rewrite app_nil_r.
  - by rewrite settle_stop_idle.
Qed.

Lemma delivered_dispatch (ls : list Callable) (w : World) :
  delivered (dispatch h ls w) = delivered w.
Proof.
  revert w. induction ls as [|c ls IH]; intros w; cbn; [done|].
  by rewrite IH, settle_call, delivered_start, delivered_stop.
Qed.

(** X4: in any world, the consumer callback is not invoked by [start], by
    [stop], by a timer rotation or by a buffer-full rotation: these leave
    the delivered traces as they were.  Only the fulfilment of an engine's
    stop promise delivers. *)
Theorem callback_only_in_reactions (w : World) :
  delivered (perform h CallStart w) = delivered w /\
  delivered (perform h CallStop w) = delivered w /\
  (forall id, delivered (perform h (TimerFires id) w) = delivered w) /\
  (forall p, delivered (perform h (SampleBufferFull p) w) = delivered w).
Proof.
  split; [apply delivered_start|]. split; [apply delivered_stop|]. split.
  - intros id. unfold perform. destruct (timers w !! id) as [tm|]; [|done].
    by rewrite settle_call, delivered_start, delivered_stop.
  - intros p. unfold perform. destruct (profilers w !! p) as [e|]; [|done].
    apply delivered_dispatch.
Qed.

(** ** One trace for each stopped engine *)

Lemma sum_list_with_alter {A : Type} (f : A -> nat) (g : A -> A) (l : list A)
    (p : nat) (e : A) :
  l !! p = Some e ->
  sum_list_with f (alter g p l) + f e = sum_list_with f l + f (g e).
Proof.
  revert p. induction l as [|x l IH]; intros [|p] He; try done.
  - injection He as ->. cbn. lia.
  - cbn in *. specialize (IH p He). lia.
Qed.

Lemma react_calls (rs : list number) (trace : ProfilerTrace.t) (w : World) :
  reads (react h rs trace w) = reads w + length rs /\
  length (delivered (react h rs trace w)) = length (delivered w) + length rs /\
  stops (react h rs trace w) = stops w.
Proof.
  revert w. induction rs as [|r rs IH]; intros w; cbn.
  - repeat split; lia.
  - destruct (IH (settle (thenCallback h r trace) w)) as (-> & -> & ->).
    rewrite settle_thenCallback. unfold delivered, stops. cbn.
    rewrite !omap_app, length_app. cbn. rewrite app_nil_r.
    repeat split; lia.
Qed.

Lemma consistent_session_engine (w : World) (s : ContinuousProfilerSession.t) :
  consistent h w ->
  ContinuousProfiler.session (this w) = Some s ->
  exists e, profilers w !! ContinuousProfilerSession.profiler s = Some e /\
            Profiler.stopped e = false /\ Profiler.reactions e = [].
Proof.
  intros Hw Hs.
  assert (Hl : live w (ContinuousProfilerSession.profiler s) = true)
    by (apply (live_is_session h w Hw); eauto).
  unfold live in Hl.
  destruct (profilers w !! _) as [e|] eqn:He; [|done].
  exists e. destruct (Profiler.stopped e) eqn:Hst; [done|].
  split; [done|]. split; [done|]. exact (live_no_reaction h w Hw _ e He Hst).
Qed.

(** In numbers: after every sequence of events the engines whose [stop()]
    was called are as many as the traces delivered plus the reactions still
    waiting. *)
Lemma stopped_engines_balance
    (o : option ContinuousProfilerInitOptions.t) (evs : list Event) :
  let w := run h evs (fresh o) in
  length (delivered w) + awaited w = stopped_engines w.
Proof.
  apply (run_preserves
           (fun w => length (delivered w) + awaited w = stopped_engines w));
    [| | |apply reachable_fresh|done].
  - intros w _ Hw _ _.
    rewrite (delivered_app w _ (started h w) eq_refl). cbn. rewrite app_nil_r.
    unfold awaited, stopped_engines in *. cbn.
    rewrite !sum_list_with_app. cbn. lia.
  - intros w s Hr Hw Hs.
    destruct (consistent_session_engine w s (reachable_consistent h w Hr) Hs)
      as (e & He & Hst & Hre).
    rewrite (delivered_app w _ (halted w s) eq_refl). cbn. rewrite app_nil_r.
    unfold awaited, stopped_engines in *. cbn.
    pose proof (sum_list_with_alter (fun e => length (Profiler.reactions e))
                  (retire (ContinuousProfilerSession.start s)) _ _ e He) as H1.
    pose proof (sum_list_with_alter (fun e => if Profiler.stopped e then 1 else 0)
                  (retire (ContinuousProfilerSession.start s)) _ _ e He) as H2.
    cbn in H1, H2. rewrite Hst in H2. rewrite Hre in H1. cbn in H1. lia.
  - intros w p e trace _ Hw He.
    destruct (react_calls (Profiler.reactions e) trace
                (update_profiler clear_reactions p w)) as (_ & Hd & _).
    destruct (react_frame h (Profiler.reactions e) trace
                (update_profiler clear_reactions p w)) as (_ & Hp & _).
    unfold awaited, stopped_engines in *. rewrite Hd, Hp. cbn.
    pose proof (sum_list_with_alter (fun e => length (Profiler.reactions e))
                  clear_reactions _ _ e He) as H1.
    pose proof (sum_list_with_alter (fun e => if Profiler.stopped e then 1 else 0)
                  clear_reactions _ _ e He) as H2.
    cbn in H1, H2. unfold delivered in *. cbn. lia.
Qed.

(** ** Clock readings *)

Lemma timed_react (rs : list number) (trace : ProfilerTrace.t) (w : World) :
  (forall S, S ∈ rs -> exists i, i < reads w /\ S = now h i) ->
  (forall t, t ∈ delivered w ->
     exists i j, i < j /\ j < reads w /\
       ContinuousProfilerTrace.start t = (timeOrigin h + now h i)%float /\
       ContinuousProfilerTrace.end_ t = (timeOrigin h + now h j)%float) ->
  forall t, t ∈ delivered (react h rs trace w) ->
    exists i j, i < j /\ j < reads (react h rs trace w) /\
      ContinuousProfilerTrace.start t = (timeOrigin h + now h i)%float /\
      ContinuousProfilerTrace.end_ t = (timeOrigin h + now h j)%float.
Proof.
  revert w. induction rs as [|r rs IH]; intros w Hrs Hd; cbn; [done|].
  apply IH; rewrite settle_thenCallback; cbn.
  - intros S HS. destruct (Hrs S) as (i & Hi & ->); [by right|].
    exists i. split; [lia|done].
  - intros t. unfold delivered. cbn. rewrite omap_app. cbn.
    intros [Ht|Ht%list_elem_of_singleton]%elem_of_app.
    + destruct (Hd t Ht) as (i & j & Hij & Hj & E1 & E2).
      exists i, j. repeat split; try done; lia.
    + subst t. destruct (Hrs r) as (i & Hi & ->); [by left|].
      exists i, (reads w). cbn. repeat split; try done; lia.
Qed.

Lemma run_timed (o : option ContinuousProfilerInitOptions.t) (evs : list Event) :
  timed h (run h evs (fresh o)).
Proof.
  apply (run_preserves (timed h)); [| | |apply reachable_fresh|].
  - intros w _ [Hse Hre Hde] _ _. split.
    + cbn. intros s [= <-]. cbn. exists (reads w). split; [lia|done].
    + cbn. intros p e S [[_ He]|[_ <-]]%lookup_snoc_Some HS; [|by inversion HS].
      destruct (Hre p e S He HS) as (i & Hi & ->). exists i. split; [lia|done].
    + intros t. rewrite (delivered_app w _ (started h w) eq_refl). cbn.
      rewrite app_nil_r. intros Ht.
      destruct (Hde t Ht) as (i & j & Hij & Hj & E1 & E2).
      exists i, j. repeat split; try done; lia.
  - intros w s _ [Hse Hre Hde] Hs. split.
    + done.
    + cbn. intros p e S. rewrite list_lookup_alter. case_decide; [|apply Hre].
      intros (e' & E & ->)%fmap_Some. cbn.
      intros [HS|HS%list_elem_of_singleton]%elem_of_app.
      * exact (Hre _ e' S E HS).
      * subst S. by apply Hse.
    + intros t. rewrite (delivered_app w _ (halted w s) eq_refl). cbn.
      rewrite app_nil_r. apply Hde.
  - intros w p e trace _ [Hse Hre Hde] He.
    set (w1 := update_profiler clear_reactions p w).
    destruct (react_frame h (Profiler.reactions e) trace w1) as (Ht & Hp & _).
    destruct (react_calls (Profiler.reactions e) trace w1) as (Hr & _).
    split.
    + rewrite Ht, Hr. cbn. intros s Hs.
      destruct (Hse s Hs) as (i & Hi & E). exists i. split; [lia|done].
    + rewrite Hp, Hr. cbn. intros q e' S. rewrite list_lookup_alter.
      case_decide.
      * intros (e'' & E & ->)%fmap_Some HS. by inversion HS.
      * intros He' HS. destruct (Hre q e' S He' HS) as (i & Hi & ->).
        exists i. split; [lia|done].
    + apply timed_react; [|done]. intros S HS. by apply (Hre p e).
  - split; cbn; [done| |].
    + intros p e S Hp. by rewrite lookup_nil in Hp.
    + intros t Ht. by inversion Ht.
Qed.

(** X6: every trace ever delivered has [start] = timeOrigin + a reading of
    [performance.now()] and [end] = timeOrigin + a reading taken by a later
    call of it: the trace's start is read from the clock strictly before
    its end, whatever rotations and deliveries come in between. *)
Theorem delivered_start_read_before_end
    (o : option ContinuousProfilerInitOptions.t) (evs : list Event) :
  Forall
    (fun t =>
       exists i j, i < j /\
         ContinuousProfilerTrace.start t = (timeOrigin h + now h i)%float /\
         ContinuousProfilerTrace.end_ t = (timeOrigin h + now h j)%float)
    (delivered (run h evs (fresh o))).
Proof.
  apply Forall_forall. intros t Ht.
  destruct (timed_delivered h _ (run_timed o evs) t Ht) as (i & j & Hij & _ & E1 & E2).
  by exists i, j.
Qed.

(** ** The engines in the call log *)

Lemma run_logged (o : option ContinuousProfilerInitOptions.t) (evs : list Event) :
  logged (run h evs (fresh o)).
Proof.
  apply (run_preserves logged); [| | |apply reachable_fresh|].
  - intros w _ [Hnd Hst] _ _.
    assert (E : stops (started h w) = stops w).
    { unfold stops. cbn. rewrite omap_app. cbn. by rewrite app_nil_r. }
    split; rewrite E; [done|]. intros p. rewrite Hst. cbn. split.
    + intros (e & He & Hs). exists e. split; [by apply lookup_app_l_Some|done].
    + intros (e & [[_ He]|[_ <-]]%lookup_snoc_Some & Hs); [eauto|done].
  - intros w s Hr [Hnd Hst] Hs.
    destruct (consistent_session_engine w s (reachable_consistent h w Hr) Hs)
      as (e & He & Hlive & _).
    assert (E : stops (halted w s) =
                stops w ++ [ContinuousProfilerSession.profiler s]).
    { unfold stops. cbn. by rewrite omap_app. }
    split; rewrite E.
    + apply NoDup_app. split; [done|]. split; [|apply NoDup_singleton].
      intros q Hq ->%list_elem_of_singleton.
      apply Hst in Hq as (e' & He' & Hs'). congruence.
    + intros q. rewrite elem_of_app, list_elem_of_singleton, Hst. cbn.
      rewrite list_lookup_alter. case_decide as Hq.
      * subst q. split; [|by right]. intros _. exists (retire (ContinuousProfilerSession.start s) e).
        by rewrite He.
      * split.
        -- intros [H1|H1]; [done|congruence].
        -- by left.
  - intros w p e trace _ [Hnd Hst] He.
    set (w1 := update_profiler clear_reactions p w).
    destruct (react_frame h (Profiler.reactions e) trace w1) as (_ & Hp & _).
    destruct (react_calls (Profiler.reactions e) trace w1) as (_ & _ & E).
    split; rewrite E; [done|]. intros q.
    change (stops w1) with (stops w). rewrite Hst, Hp. cbn.
    rewrite list_lookup_alter. case_decide; [subst q|done]. split.
    + intros (e' & He' & Hs'). exists (clear_reactions e').
      by rewrite He'.
    + intros (e' & (e'' & He'' & ->)%fmap_Some & Hs'). by exists e''.
  - split; [apply NoDup_nil_2|]. intros p. cbn. split.
    + intros Hp. by inversion Hp.
    + by intros (e & ? & _).
Qed.

(** X8: the controller calls [stop()] on an engine instance at most once:
    in the log of calls no engine is stopped twice, the engines stopped are
    constructed ones, and an engine is in the log as stopped exactly when it
    is no longer live. *)
Theorem engine_stopped_at_most_once
    (o : option ContinuousProfilerInitOptions.t) (evs : list Event) :
  let w := run h evs (fresh o) in
  NoDup (stops w) /\
  forall p, p ∈ stops w <-> p < length (profilers w) /\ live w p = false.
Proof.
  intros w. destruct (run_logged o evs) as [Hnd Hst]. fold w in Hnd, Hst.
  split; [done|]. intros p. rewrite Hst. unfold live. split.
  - intros (e & He & Hs). rewrite He, Hs. split; [|done].
    by apply lookup_lt_Some in He.
  - intros [Hlt Hl]. apply lookup_lt_is_Some in Hlt as [e He].
    rewrite He in Hl. exists e. split; [done|].
    by destruct (Profiler.stopped e).
Qed.

(** ** Fresh engines *)

Lemma run_newest (o : option ContinuousProfilerInitOptions.t) (evs : list Event) :
  newest (run h evs (fresh o)).
Proof.
  apply (run_preserves newest); [| | |apply reachable_fresh|done].
  - intros w _ _ _ _ s [= <-]. cbn. rewrite length_app. cbn. split; lia.
  - by intros w s _ _ _ s'.
  - intros w p e trace _ Hw _ s.
    destruct (react_frame h (Profiler.reactions e) trace
                (update_profiler clear_reactions p w)) as (-> & -> & _ & ->).
    cbn. rewrite length_alter. apply Hw.
Qed.

(** X9: every [start] that creates a session constructs a new engine for
    it: after every sequence of events the session's engine is the one
    constructed last, every engine constructed before it is stopped, and an
    engine once retired is never the session's again. *)
Theorem session_engine_is_newest
    (o : option ContinuousProfilerInitOptions.t) (evs : list Event) :
  let w := run h evs (fresh o) in
  match ContinuousProfiler.session (this w) with
  | Some s =>
      S (ContinuousProfilerSession.profiler s) = length (profilers w) /\
      forall q, q < ContinuousProfilerSession.profiler s -> q ∈ stops w
  | None => forall q, q < length (profilers w) -> q ∈ stops w
  end.
Proof.
  intros w.
  assert (Hc : consistent h w) by (apply reachable_consistent; by exists o, evs).
  destruct (run_logged o evs) as [_ Hst]. fold w in Hst.
  pose proof (run_newest o evs) as Hn. fold w in Hn.
  assert (Hdead : forall q, q < length (profilers w) ->
            (forall s, ContinuousProfiler.session (this w) = Some s ->
                       ContinuousProfilerSession.profiler s <> q) ->
            q ∈ stops w).
  { intros q [e He]%lookup_lt_is_Some Hq. apply Hst. exists e. split; [done|].
    destruct (Profiler.stopped e) eqn:Hs; [done|].
    assert (Hl : live w q = true) by (unfold live; by rewrite He, Hs).
    apply (live_is_session h w Hc) in Hl as (s & Hs' & <-).
    by destruct (Hq s Hs'). }
  destruct (ContinuousProfiler.session (this w)) as [s|] eqn:Hs.
  - destruct (Hn s Hs) as [Hlen _]. split; [done|].
    intros q Hq. apply Hdead; [lia|]. intros s' [= <-]. lia.
  - intros q Hq. by apply Hdead.
Qed.

(** ** Events of retired engines *)

Lemma engines_need_the_capability (w : World) :
  reachable h w -> profilers w = [] \/ Profiler_defined h = true.
Proof.
  intros (o & evs & ->).
  apply (run_preserves (fun w => profilers w = [] \/ Profiler_defined h = true));
    [| | |apply reachable_fresh|by left].
  - intros; by right.
  - intros w s _ [Hw|Hw] _; [left|by right]. cbn. by rewrite Hw.
  - intros w p e trace _ [Hw|Hw] _; [left|by right].
    destruct (react_frame h (Profiler.reactions e) trace
                (update_profiler clear_reactions p w)) as (_ & -> & _).
    cbn. by rewrite Hw.
Qed.

(** X10: the buffer-full listener of an engine is never removed.  While no
    session exists (after [stop], say), a [samplebufferfull] event of any
    engine constructed earlier makes its listener run [stop], a no-op, and
    [start], which creates a new session: the controller is running
    again. *)
Theorem late_buffer_full_starts_a_session (w : World) (q : nat) :
  reachable h w ->
  stopped w = true ->
  q < length (profilers w) ->
  perform h (SampleBufferFull q) w = started h w /\
  stopped (perform h (SampleBufferFull q) w) = false.
Proof.
  intros Hr Hs Hq. unfold stopped in Hs.
  destruct (ContinuousProfiler.session (this w)) eqn:Hn; [done|]. clear Hs.
  assert (Hc : Profiler_defined h = true).
  { destruct (engines_need_the_capability w Hr) as [E|]; [|done].
    rewrite E in Hq. cbn in Hq. lia. }
  assert (E : perform h (SampleBufferFull q) w = started h w).
  { unfold perform. apply lookup_lt_is_Some in Hq as [e He]. rewrite He.
    rewrite (one_listener h w (reachable_consistent h w Hr) q e He).
    unfold dispatch. rewrite settle_call, settle_stop_idle by done.
    by apply settle_start_idle. }
  by rewrite E.
Qed.

(** X11: listeners do not pile up: after every sequence of events each
    engine instance carries exactly one [samplebufferfull] listener, the one
    [start] registered when it constructed the engine, so one event of the
    active engine runs one rotation, which leaves exactly one live engine. *)
Theorem one_listener_per_engine
    (o : option ContinuousProfilerInitOptions.t) (evs : list Event) :
  let w := run h evs (fresh o) in
  Forall (fun e => Profiler.listeners e = [SampleBufferFullListener]) (profilers w) /\
  forall p, live w p = true ->
            live_profilers (perform h (SampleBufferFull p) w) = [length (profilers w)].
Proof.
  intros w.
  assert (Hr : reachable h w) by by exists o, evs.
  pose proof (reachable_consistent h w Hr) as Hc.
  split.
  - apply Forall_lookup. intros p e He. by apply (one_listener h w Hc p e).
  - intros p Hp.
    apply (live_is_session h w Hc) in Hp as (s & Hs & <-).
    destruct (consistent_session_engine w s Hc Hs) as (e & He & _).
    rewrite (perform_trigger h w s (SampleBufferFull _) Hc Hs) by by exists e.
    rewrite (live_profilers_session h).
    + cbn. by rewrite length_alter.
    + apply consistent_started.
      * by apply consistent_halted.
      * by apply (session_needs_engine h w Hc s).
      * done.
Qed.

(** ** The reaction of each stopped engine *)

Lemma run_single_reaction
    (o : option ContinuousProfilerInitOptions.t) (evs : list Event) :
  forall p e, profilers (run h evs (fresh o)) !! p = Some e ->
              length (Profiler.reactions e) <= 1.
Proof.
  apply (run_preserves
           (fun w => forall p e, profilers w !! p = Some e ->
                                 length (Profiler.reactions e) <= 1));
    [| | |apply reachable_fresh|done].
  - intros w _ Hw _ _ p e [[_ He]|[_ <-]]%lookup_snoc_Some; [by eapply Hw|cbn; lia].
  - intros w s Hr Hw Hs p e. cbn. rewrite list_lookup_alter.
    case_decide; [|apply Hw]. intros (e' & E & ->)%fmap_Some. cbn.
    destruct (consistent_session_engine w s (reachable_consistent h w Hr) Hs)
      as (e0 & He0 & _ & Hre).
    assert (e' = e0) as -> by congruence. rewrite Hre. cbn. lia.
  - intros w p e trace _ Hw _ q e'.
    destruct (react_frame h (Profiler.reactions e) trace
                (update_profiler clear_reactions p w)) as (_ & -> & _).
    cbn. rewrite list_lookup_alter. case_decide; [|apply Hw].
    intros (e'' & E & ->)%fmap_Some. cbn. lia.
Qed.

Lemma pending_settle_start (w : World) (p : nat) :
  pending w p -> pending (settle (start h) w) p.
Proof.
  intros Hp. destruct (Profiler_defined h) eqn:Hc.
  - destruct (ContinuousProfiler.session (this w)) as [s|] eqn:Hs.
    + by rewrite (settle_start_active h w s).
    + rewrite settle_start_idle by done. by apply pending_started.
  - by rewrite settle_start_unsupported.
Qed.

Lemma pending_settle_stop (w : World) (p : nat) :
  pending w p -> pending (settle stop w) p.
Proof.
  intros (e & He & Hre).
  destruct (ContinuousProfiler.session (this w)) as [s|] eqn:Hs.
  - rewrite (settle_stop_active w s) by done.
    destruct (decide (ContinuousProfilerSession.profiler s = p)) as [<-|Hne].
    + exists (retire (ContinuousProfilerSession.start s) e). split.
      * cbn. by rewrite list_lookup_alter_eq, He.
      * cbn. by destruct (Profiler.reactions e).
    + exists e. split; [|done]. cbn. by rewrite list_lookup_alter_ne.
  - rewrite settle_stop_idle by done. by exists e.
Qed.

Lemma pending_dispatch (ls : list Callable) (w : World) (p : nat) :
  pending w p -> pending (dispatch h ls w) p.
Proof.
  revert w. induction ls as [|c ls IH]; intros w Hp; cbn; [done|].
  apply IH. rewrite settle_call. by apply pending_settle_start, pending_settle_stop.
Qed.

(** X5: every stopped engine accounts for exactly one trace.  After every
    sequence of events: an engine has at most one reaction waiting on its
    stop promise, and only if its [stop()] was called; an event that takes
    the session out of the slot leaves a reaction waiting on that session's
    own engine; the reaction keeps waiting through every event but the
    fulfilment of that engine's promise; the fulfilment delivers one trace,
    carrying the engine's raw trace, and leaves no reaction on the engine;
    and a fulfilment with no reaction waiting delivers nothing. *)
Theorem each_stopped_engine_delivers_once
    (o : option ContinuousProfilerInitOptions.t) (evs : list Event) :
  let w := run h evs (fresh o) in
  (forall p e, profilers w !! p = Some e -> length (Profiler.reactions e) <= 1) /\
  (forall p, pending w p -> p ∈ stops w) /\
  (forall ev s,
     ContinuousProfiler.session (this w) = Some s ->
     ContinuousProfiler.session (this (perform h ev w)) = Some s \/
     pending (perform h ev w) (ContinuousProfilerSession.profiler s)) /\
  (forall ev p,
     pending w p -> (forall trace, ev <> StopResolves p trace) ->
     pending (perform h ev w) p) /\
  (forall p trace,
     pending w p ->
     (exists t, delivered (perform h (StopResolves p trace) w) = delivered w ++ [t] /\
                ContinuousProfilerTrace.trace t = trace) /\
     ~ pending (perform h (StopResolves p trace) w) p /\
     forall q, q <> p ->
       (pending (perform h (StopResolves p trace) w) q <-> pending w q)) /\
  (forall p trace,
     ~ pending w p ->
     delivered (perform h (StopResolves p trace) w) = delivered w).
Proof.
  intros w.
  assert (Hr : reachable h w) by by exists o, evs.
  pose proof (reachable_consistent h w Hr) as Hc.
  pose proof (run_single_reaction o evs) as Hone. fold w in Hone.
  destruct (run_logged o evs) as [_ Hst]. fold w in Hst.
  split; [done|]. split; [|split; [|split; [|split]]].
  - intros p (e & He & Hre). apply Hst. exists e. split; [done|].
    destruct (Profiler.stopped e) eqn:Hs; [done|].
    by destruct Hre, (live_no_reaction h w Hc p e He Hs).
  - intros ev s Hs.
    destruct (pending_halted h w s Hc Hs) as [_ Hp].
    assert (Hcap : Profiler_defined h = true)
      by by apply (session_needs_engine h w Hc s).
    destruct ev as [| |id|q|q trace].
    + left. unfold perform. by rewrite (settle_start_active h w s).
    + right. unfold perform. by rewrite (settle_stop_active w s).
    + destruct (timers w !! id) as [tm|] eqn:Hid.
      * right.
        rewrite (perform_trigger h w s (TimerFires id) Hc Hs) by by exists tm.
        by apply pending_started.
      * left. unfold perform. by rewrite Hid.
    + destruct (profilers w !! q) as [e|] eqn:He.
      * right.
        rewrite (perform_trigger h w s (SampleBufferFull q) Hc Hs) by by exists e.
        by apply pending_started.
      * left. unfold perform. by rewrite He.
    + unfold perform.
      destruct (profilers w !! q) as [e|] eqn:He; [|by left]. left.
      destruct (react_frame h (Profiler.reactions e) trace
                  (update_profiler clear_reactions q w)) as (-> & _).
      done.
  - intros ev p Hp Hev.
    destruct ev as [| |id|q|q trace]; unfold perform.
    + by apply pending_settle_start.
    + by apply pending_settle_stop.
    + destruct (timers w !! id) as [tm|]; [|done].
      rewrite settle_call. apply pending_settle_start, pending_settle_stop.
      destruct Hp as (e & He & Hre). by exists e.
    + destruct (profilers w !! q) as [e|]; [|done]. by apply pending_dispatch.
    + destruct (profilers w !! q) as [e|] eqn:He; [|done].
      assert (Hne : q <> p) by (intros ->; by apply (Hev trace)).
      destruct Hp as (e' & He' & Hre'). exists e'. split; [|done].
      destruct (react_frame h (Profiler.reactions e) trace
                  (update_profiler clear_reactions q w)) as (_ & -> & _).
      cbn. by rewrite list_lookup_alter_ne.
  - intros p trace (e & He & Hre).
    pose proof (Hone p e He) as Hlen.
    destruct (Profiler.reactions e) as [|r [|r' rs]] eqn:Hrs; [done| |cbn in Hlen; lia].
    unfold perform. rewrite He, Hrs. cbn. rewrite settle_thenCallback.
    split; [|split].
    + eexists. split.
      * unfold delivered. cbn. rewrite omap_app. cbn. reflexivity.
      * reflexivity.
    + intros (e' & He' & Hre'). cbn in He'.
      rewrite list_lookup_alter_eq, He in He'. injection He' as <-. done.
    + intros q Hq. unfold pending. cbn. by rewrite list_lookup_alter_ne.
  - intros p trace Hp. unfold perform.
    destruct (profilers w !! p) as [e|] eqn:He; [|done].
    destruct (Profiler.reactions e) as [|r rs] eqn:Hrs; [done|].
    destruct Hp. exists e. by rewrite Hrs.
Qed.

End Coverage.

(** ** Concrete runs of the further properties *)

Lemma unsupported_page_is_inert_witness :
  Profiler_defined legacy_browser = false /\
  run legacy_browser [CallStart; TimerFires 1; SampleBufferFull 0; CallStop]
    (fresh None) = fresh None.
Proof.
  assert (H1 : Profiler_defined legacy_browser = false) by reflexivity.
  split; [exact H1|].
  exact (unsupported_page_is_inert legacy_browser None
           [CallStart; TimerFires 1; SampleBufferFull 0; CallStop] H1).
Defined.

Lemma stored_intervals_are_truthy_witness :
  let no_sample :=
    Some {| ContinuousProfilerInitOptions.sampleInterval := None;
            ContinuousProfilerInitOptions.collectInterval := Some 250%float |} in
  let no_collect :=
    Some {| ContinuousProfilerInitOptions.sampleInterval := Some 25%float;
            ContinuousProfilerInitOptions.collectInterval := None |} in
  js_and no_sample ContinuousProfilerInitOptions.sampleInterval = None /\
  js_and no_collect ContinuousProfilerInitOptions.collectInterval = None /\
  ContinuousProfilerOptions.sampleInterval
    (ContinuousProfiler.options (constructor no_sample)) = 10%float /\
  ContinuousProfilerOptions.collectInterval
    (ContinuousProfiler.options (constructor no_collect)) = 10000%float.
Proof.
  intros no_sample no_collect.
  assert (H1 : js_and no_sample ContinuousProfilerInitOptions.sampleInterval = None)
    by reflexivity.
  assert (H2 : js_and no_collect ContinuousProfilerInitOptions.collectInterval = None)
    by reflexivity.
  split; [exact H1|]. split; [exact H2|]. split.
  - exact (proj1 (proj2 (proj2 (stored_intervals_are_truthy no_sample))) H1).
  - exact (proj2 (proj2 (proj2 (stored_intervals_are_truthy no_collect))) H2).
Defined.

Lemma session_engine_is_newest_witness :
  let w := run browser [CallStart; TimerFires 1] (fresh None) in
  ContinuousProfiler.session (this w) =
    Some {| ContinuousProfilerSession.profiler := 1;
            ContinuousProfilerSession.start := 750%float;
            ContinuousProfilerSession.timeoutId := 2 |} /\
  length (profilers w) = 2 /\
  0 ∈ stops w.
Proof.
  intros w.
  pose proof (session_engine_is_newest browser None [CallStart; TimerFires 1]) as H.
  change (match ContinuousProfiler.session (this w) with
          | Some s =>
              S (ContinuousProfilerSession.profiler s) = length (profilers w) /\
              forall q, q < ContinuousProfilerSession.profiler s -> q ∈ stops w
          | None => forall q, q < length (profilers w) -> q ∈ stops w
          end) in H.
  assert (Hs : ContinuousProfiler.session (this w) =
    Some {| ContinuousProfilerSession.profiler := 1;
            ContinuousProfilerSession.start := 750%float;
            ContinuousProfilerSession.timeoutId := 2 |}) by reflexivity.
  rewrite Hs in H. destruct H as [Hlen Hq].
  split; [exact Hs|]. split; [symmetry; exact Hlen|].
  exact (Hq 0 (le_n 1)).
Defined.

Lemma late_buffer_full_starts_a_session_witness :
  let w := run browser [CallStart; CallStop] (fresh None) in
  reachable browser w /\
  stopped w = true /\
  0 < length (profilers w) /\
  stopped (perform browser (SampleBufferFull 0) w) = false.
Proof.
  intros w.
  assert (H1 : reachable browser w) by (exists None, [CallStart; CallStop]; reflexivity).
  assert (H2 : stopped w = true) by reflexivity.
  assert (H3 : 0 < length (profilers w)) by (vm_compute; lia).
  split; [exact H1|]. split; [exact H2|]. split; [exact H3|].
  exact (proj2 (late_buffer_full_starts_a_session browser w 0 H1 H2 H3)).
Defined.

Lemma one_listener_per_engine_witness :
  let w := run browser [CallStart] (fresh None) in
  live w 0 = true /\
  live_profilers (perform browser (SampleBufferFull 0) w) = [1].
Proof.
  intros w.
  assert (H1 : live w 0 = true) by reflexivity.
  split; [exact H1|].
  exact (proj2 (one_listener_per_engine browser None [CallStart]) 0 H1).
Defined.

Lemma each_stopped_engine_delivers_once_witness :
  let w := run browser [CallStart; CallStop] (fresh None) in
  pending w 0 /\
  (forall trace', SampleBufferFull 0 <> StopResolves 0 trace') /\
  pending (perform browser (SampleBufferFull 0) w) 0 /\
  exists t,
    delivered (perform browser (StopResolves 0 empty_trace) w) = delivered w ++ [t] /\
    ContinuousProfilerTrace.trace t = empty_trace.
Proof.
  intros w.
  assert (H1 : pending w 0) by (eexists; split; [reflexivity | discriminate]).
  assert (H2 : forall trace', SampleBufferFull 0 <> StopResolves 0 trace')
    by (intros trace'; discriminate).
  pose proof (each_stopped_engine_delivers_once browser None [CallStart; CallStop])
    as (_ & _ & _ & Hkeep & Hdel & _).
  split; [exact H1|]. split; [exact H2|]. split.
  - exact (Hkeep (SampleBufferFull 0) 0 H1 H2).
  - exact (proj1 (Hdel 0 empty_trace H1)).
Defined.
